(** * A model of the curl-backed HTTP client (mongo/util/net/http_client_curl.cpp)

    The development follows the source file top to bottom:
    - [CurlLibraryManager]: process-wide start-up of the transfer engine;
    - [WriteMemoryCallback] / [ReadMemoryCallback]: the two callbacks that
      bridge the engine and the in-memory buffers;
    - [doPost]: the orchestration of one POST transfer, resolving a shared
      promise.

    libcurl itself is a black box.  It is represented by a record of oracles
    ([World]) and, for [curl_easy_perform], by a finite interaction tree
    ([EngineRun]) that says which callback the engine invokes next and how it
    reacts to what the callback returned. *)

From Stdlib Require Import ZArith List String Ascii Bool Lia DecimalString.
From Stdlib Require Import Strings.Byte.
Import ListNotations.

Open Scope Z_scope.

(** ** Machine integers and text formatting *)

Module Platform.

(** [size_t] is an unsigned 64-bit integer; arithmetic on it wraps. *)
Definition size_t_modulus : Z := 2 ^ 64.

Definition wrap_size_t (z : Z) : Z := z mod size_t_modulus.

(** [size * nmemb] as computed on [size_t]. *)
Definition size_mul (a b : Z) : Z := wrap_size_t (a * b).

(** The C cast [(long)x] of a [size_t] value: reinterpretation as a signed
    64-bit integer. *)
Definition to_long (z : Z) : Z := (z + 2 ^ 63) mod size_t_modulus - 2 ^ 63.

(** Modelled from the spec: str::stream (mongo/util/mongoutils/str.h is not
    part of the sources at hand); the diagnostics carry "the numeric status
    code".  [str::stream() << n] for an integral [n] is its decimal
    rendering. *)
Definition string_of_long (z : Z) : string :=
  NilZero.string_of_int (Z.to_int z).

(** [contains needle hay]: [needle] occurs in [hay] as a contiguous run. *)
Fixpoint contains (needle hay : string) : bool :=
  String.prefix needle hay
  || match hay with
     | EmptyString => false
     | String _ rest => contains needle rest
     end.

End Platform.
Import Platform.

(** ** mongo::Status *)

Module ErrorCodes.
Inductive Error : Set :=
| OK
| InternalError
| UnknownError
| BadValue
| Overflow
| OperationFailed.

Definition eqb (a b : Error) : bool :=
  match a, b with
  | OK, OK | InternalError, InternalError | UnknownError, UnknownError
  | BadValue, BadValue | Overflow, Overflow
  | OperationFailed, OperationFailed => true
  | _, _ => false
  end.
End ErrorCodes.

Record Status : Set := mkStatus {
  code : ErrorCodes.Error;
  reason : string
}.

Definition Status_OK : Status := mkStatus ErrorCodes.OK "".

Definition isOK (s : Status) : bool := ErrorCodes.eqb (code s) ErrorCodes.OK.

(** ** Ways a piece of code can complete

    C++ code either returns, throws, or brings the process down
    ([invariant] failure). *)

Inductive Exception : Set :=
| BadAlloc
| DBException (s : Status)
| StdException (what : string).

Inductive Completion (A : Type) : Type :=
| Normal (a : A)
| Thrown (e : Exception)
| Aborted.

Arguments Normal {A} a.
Arguments Thrown {A} e.
Arguments Aborted {A}.

(** ** The byte buffers the callbacks work on *)

(** Modelled from the spec: ConstDataRangeCursor (mongo/base/data_range_cursor.h
    is not part of the sources at hand).  "A byte-cursor type exposing
    remaining-length(), pointer-to-unread(), advance(n) -> success/failure";
    it is a read position over the payload that "never exceeds payload
    length". *)
Record ConstDataRangeCursor : Set := mkCursor {
  cdrc_bytes : list byte;   (* the payload the cursor ranges over *)
  cdrc_begin : nat          (* how many bytes have been consumed *)
}.

Module Cursor.
Definition make (cdr : list byte) : ConstDataRangeCursor := mkCursor cdr 0.

(** [length()]: the number of unread bytes. *)
Definition length (c : ConstDataRangeCursor) : Z :=
  Z.of_nat (List.length (cdrc_bytes c) - cdrc_begin c).

(** [data()]: the unread region. *)
Definition data (c : ConstDataRangeCursor) : list byte :=
  skipn (cdrc_begin c) (cdrc_bytes c).

(** [advance(n)]: fails, leaving the cursor where it is, when [n] exceeds
    what remains. *)
Definition advance (c : ConstDataRangeCursor) (n : Z)
  : Status * ConstDataRangeCursor :=
  if length c <? n
  then (mkStatus ErrorCodes.Overflow "Invalid advance", c)
  else (Status_OK, mkCursor (cdrc_bytes c) (cdrc_begin c + Z.to_nat n)).
End Cursor.

(** Modelled from the spec: DataBuilder (mongo/base/data_builder.h is not part
    of the sources at hand).  "An append-only growable byte store" that
    "starts with a small preallocated capacity (4096 bytes) and grows on
    demand", "exposing append(bytes) -> success/failure and
    read-all-as-cursor()".  An append that fits in the room already reserved
    succeeds; otherwise the store asks the allocator for more room and tries
    again, and the append fails when the room is still too small. *)
Record DataBuilder : Set := mkBuilder {
  written : list byte;   (* the bytes appended so far *)
  unwritten : nat        (* room left in the current allocation *)
}.

Module Builder.
(** The allocator: for a store of the given capacity that needs the given
    number of further bytes, how many bytes the store grows by.  Fewer than
    needed means that the allocation failed. *)
Definition Allocator : Type := nat -> nat -> nat.

(** [DataBuilder(bytes)]: an empty store with [bytes] reserved. *)
Definition make (bytes : Z) : DataBuilder := mkBuilder [] (Z.to_nat bytes).

Definition capacity (b : DataBuilder) : nat :=
  (List.length (written b) + unwritten b)%nat.

Definition fits (b : DataBuilder) (value : list byte) : bool :=
  (List.length value <=? unwritten b)%nat.

Definition store (b : DataBuilder) (value : list byte) : DataBuilder :=
  mkBuilder (written b ++ value) (unwritten b - List.length value).

Definition reserve (alloc : Allocator) (b : DataBuilder) (needed : nat)
  : DataBuilder :=
  mkBuilder (written b) (unwritten b + alloc (capacity b) needed).

Definition writeAndAdvance (alloc : Allocator) (b : DataBuilder)
           (value : list byte) : Status * DataBuilder :=
  if fits b value then (Status_OK, store b value)
  else
    let b := reserve alloc b (List.length value) in
    if fits b value then (Status_OK, store b value)
    else (mkStatus ErrorCodes.Overflow "Could not store value", b).

(** [getCursor()]: a cursor over everything written so far. *)
Definition getCursor (b : DataBuilder) : ConstDataRangeCursor :=
  Cursor.make (written b).
End Builder.

(** [ConstDataRange(ptr, ptr + n)]: the first [n] bytes found at [ptr]. *)
Definition ConstDataRange (ptr : list byte) (n : Z) : list byte :=
  firstn (Z.to_nat n) ptr.

(** [memcpy(dst, src, n)]: the first [n] bytes of [dst] are replaced by the
    first [n] bytes of [src]. *)
Definition memcpy (dst src : list byte) (n : Z) : list byte :=
  (firstn (Z.to_nat n) src ++ skipn (Z.to_nat n) dst)%list.

(** ** The callbacks *)

(** Receives data from the remote side.  Returns the count handed back to the
    engine and the builder afterwards. *)
Definition WriteMemoryCallback (alloc : Builder.Allocator)
           (ptr : list byte) (size nmemb : Z) (data : DataBuilder)
  : Z * DataBuilder :=
  let realsize := size_mul size nmemb in
  let '(st, mem) := Builder.writeAndAdvance alloc data (ConstDataRange ptr realsize) in
  if negb (isOK st)
  then (0, mem)
  else (realsize, mem).

(** Sends data to the remote side.  Returns the engine's buffer after the
    copy, the cursor afterwards and the count handed back to the engine;
    [Aborted] stands for a failed [invariant]. *)
Definition ReadMemoryCallback (buffer : list byte) (size nitems : Z)
           (cdrc : ConstDataRangeCursor)
  : Completion (list byte * ConstDataRangeCursor * Z) :=
  let ret := 0 in
  if 0 <? Cursor.length cdrc then
    let readSize := Z.min (size_mul size nitems) (Cursor.length cdrc) in
    let buffer' := memcpy buffer (Cursor.data cdrc) readSize in
    let '(st, cdrc') := Cursor.advance cdrc readSize in
    if isOK st
    then Normal (buffer', cdrc', readSize)
    else Aborted
  else Normal (buffer, cdrc, ret).

(** ** libcurl: constants, handles and the engine as a black box *)

Definition CURLcode : Set := Z.

Module Curl.
Definition CURLE_OK : CURLcode := 0.
Definition CURLE_UNSUPPORTED_PROTOCOL : CURLcode := 1.
Definition CURLE_WRITE_ERROR : CURLcode := 23.

Definition CURL_GLOBAL_ALL : Z := 3.
Definition CURL_VERSION_SSL : Z := Z.shiftl 1 2.

Definition CURLPROTO_HTTP : Z := Z.shiftl 1 0.
Definition CURLPROTO_HTTPS : Z := Z.shiftl 1 1.

Definition CURL_HTTP_VERSION_1_1 : Z := 2.
Definition CURL_SSLVERSION_TLSv1_2 : Z := 6.
End Curl.
Import Curl.

(** The two functions and the two objects whose addresses are handed to the
    engine. *)
Inductive Callback : Set := fn_WriteMemoryCallback | fn_ReadMemoryCallback.
Inductive UserData : Set := addr_dataBuilder | addr_cdrc.

(** A [curl_slist*]: [None] is the null pointer. *)
Definition curl_slist : Set := option (list string).

Inductive CurlOption : Set :=
| CURLOPT_URL (url : string)
| CURLOPT_POST (v : Z)
| CURLOPT_PROTOCOLS (mask : Z)
| CURLOPT_HTTP_VERSION (v : Z)
| CURLOPT_WRITEFUNCTION (f : Callback)
| CURLOPT_WRITEDATA (p : UserData)
| CURLOPT_READFUNCTION (f : Callback)
| CURLOPT_READDATA (p : UserData)
| CURLOPT_POSTFIELDSIZE (n : Z)
| CURLOPT_CONNECTTIMEOUT (seconds : Z)
| CURLOPT_TIMEOUT (seconds : Z)
| CURLOPT_SSLVERSION (v : Z)
| CURLOPT_FOLLOWLOCATION (v : Z)
| CURLOPT_NOSIGNAL (v : Z)
| CURLOPT_HTTPHEADER (headers : curl_slist).

(** An easy handle is known to this program only through the options it has
    asked for, oldest first. *)
Definition CURL : Set := list CurlOption.

(** What [curl_easy_getinfo(CURLINFO_RESPONSE_CODE)] will report once the
    transfer is over. *)
Record TransferInfo : Set := mkInfo {
  getinfo_result : CURLcode;
  response_code : Z
}.

(** One call of [curl_easy_perform], seen from outside: the engine invokes a
    callback and continues according to what came back, or it finishes.  The
    tree is well-founded: a transfer ends. *)
Inductive EngineRun : Type :=
| Finish (result : CURLcode) (info : TransferInfo)
| InvokeRead (buffer : list byte) (size nitems : Z)
             (k : list byte -> Z -> EngineRun)
| InvokeWrite (ptr : list byte) (size nmemb : Z) (k : Z -> EngineRun).

(** Process-wide state of the engine, with counters of the global calls. *)
Record CurlGlobal : Set := mkGlobal {
  global_init_calls : nat;
  global_cleanup_calls : nat
}.

(** The places inside [doPost]'s [try] block where C++ objects are built and
    an exception may therefore be thrown. *)
Inductive ThrowSite : Set :=
| AtHandleFailureStatus      (* Status {InternalError, ...}          *)
| AtDataBuilder              (* DataBuilder dataBuilder(4096)        *)
| AtTransportFailureStatus   (* str::stream for a failed perform     *)
| AtGetinfoFailureStatus     (* str::stream for a failed getinfo     *)
| AtStatusCodeStatus         (* str::stream for a status other than 200 *)
| AtResponseVector.          (* std::vector<uint8_t>(first, last)    *)

(** Everything outside this translation unit that the code depends on. *)
Record World : Type := mkWorld {
  engine_global_init : CurlGlobal -> Z -> CURLcode;
  engine_features : Z;
  engine_easy_init : bool;
  engine_setopt : CURL -> CurlOption -> CURLcode;
  engine_slist_append : curl_slist -> string -> bool;
  engine_perform : CURL -> EngineRun;
  engine_strerror : CURLcode -> string;
  getTestCommandsEnabled : bool;
  LIBCURL_VERSION_NUM : Z;
  kConnectionTimeoutSeconds : Z;
  kTotalRequestTimeoutSeconds : Z;
  allocator : Builder.Allocator;
  throws : ThrowSite -> option Exception;
  exceptionToStatus : Exception -> Status
}.

(** ** CurlLibraryManager *)

Record CurlLibraryManager : Set := mkManager {
  _initialized : bool
}.

Module Manager.

(** The state of a freshly constructed manager. *)
Definition fresh : CurlLibraryManager := mkManager false.

Definition curl_global_init (w : World) (g : CurlGlobal) (flags : Z)
  : CURLcode * CurlGlobal :=
  (engine_global_init w g flags,
   mkGlobal (S (global_init_calls g)) (global_cleanup_calls g)).

Definition curl_global_cleanup (g : CurlGlobal) : CurlGlobal :=
  mkGlobal (global_init_calls g) (S (global_cleanup_calls g)).

Definition initialize (w : World) (self : CurlLibraryManager) (g : CurlGlobal)
  : Status * CurlLibraryManager * CurlGlobal :=
  if _initialized self then (Status_OK, self, g)
  else
    let '(ret, g) := curl_global_init w g CURL_GLOBAL_ALL in
    if negb (ret =? CURLE_OK) then
      (mkStatus ErrorCodes.InternalError
                ("Failed to initialize CURL: " ++ string_of_long ret),
       self, g)
    else
      let features := engine_features w in
      if Z.land features CURL_VERSION_SSL =? 0 then
        (mkStatus ErrorCodes.InternalError
                  "Curl lacks SSL support, cannot continue",
         self, g)
      else
        (Status_OK, mkManager true, g).

(** [n] calls of [initialize] in a row: the statuses returned, in order,
    and the state afterwards. *)
Fixpoint initialize_times (w : World) (n : nat) (self : CurlLibraryManager)
         (g : CurlGlobal) : list Status * CurlLibraryManager * CurlGlobal :=
  match n with
  | O => ([], self, g)
  | S n' =>
      let '(st, self, g) := initialize w self g in
      let '(sts, self, g) := initialize_times w n' self g in
      (st :: sts, self, g)
  end.

(** The destructor. *)
Definition destroy (self : CurlLibraryManager) (g : CurlGlobal) : CurlGlobal :=
  if _initialized self then curl_global_cleanup g else g.

End Manager.

(** ** The shared promise and the monad [doPost] runs in *)

(** Modelled from the spec: SharedPromise (mongo/util/future.h is not part of
    the sources at hand).  "A single-assignment, cross-thread-visible slot";
    "writing it twice is a programming error".  The slot is represented by
    the writes it has received, oldest first, so that a second write shows. *)
Inductive PromiseWrite : Set :=
| SetError (s : Status)
| EmplaceValue (v : list byte).

Definition SharedPromise : Set := list PromiseWrite.

Definition M (A : Type) : Type := SharedPromise -> Completion A * SharedPromise.

Definition ret {A} (a : A) : M A := fun p => (Normal a, p).

Definition bind {A B} (m : M A) (k : A -> M B) : M B :=
  fun p =>
    match m p with
    | (Normal a, p') => k a p'
    | (Thrown e, p') => (Thrown e, p')
    | (Aborted, p') => (Aborted, p')
    end.

Definition try_catch {A} (body : M A) (handler : Exception -> M A) : M A :=
  fun p =>
    match body p with
    | (Thrown e, p') => handler e p'
    | other => other
    end.

Declare Scope post_scope.
Delimit Scope post_scope with post.
Notation "x <- c1 ;; c2" := (bind c1 (fun x => c2))
  (at level 61, c1 at next level, right associativity) : post_scope.
Notation "' pat <- c1 ;; c2" := (bind c1 (fun x => match x with pat => c2 end))
  (at level 61, pat pattern, c1 at next level, right associativity) : post_scope.
Notation "c1 ;;; c2" := (bind c1 (fun _ => c2))
  (at level 61, right associativity) : post_scope.

Definition setError (s : Status) : M unit :=
  fun p => (Normal tt, (p ++ [SetError s])%list).

Definition emplaceValue (v : list byte) : M unit :=
  fun p => (Normal tt, (p ++ [EmplaceValue v])%list).

(** Building a C++ object at [site]: the world decides whether that throws. *)
Definition construct {A} (w : World) (site : ThrowSite) (a : A) : M A :=
  fun p =>
    match throws w site with
    | Some e => (Thrown e, p)
    | None => (Normal a, p)
    end.

(** ** Engine calls as the code makes them *)

Definition curl_easy_init (w : World) : option CURL :=
  if engine_easy_init w then Some [] else None.

(** The option is recorded on the handle; the return code is the engine's. *)
Definition curl_easy_setopt (w : World) (h : CURL) (o : CurlOption)
  : CURL * CURLcode :=
  ((h ++ [o])%list, engine_setopt w h o).

(** Appending to a null list starts a new one; a failed append yields null. *)
Definition curl_slist_append (w : World) (l : curl_slist) (s : string)
  : curl_slist :=
  if engine_slist_append w l s then
    Some (match l with Some items => items | None => [] end ++ [s])%list
  else None.

(** Running the engine against the two callbacks. *)
Fixpoint run_engine (alloc : Builder.Allocator) (r : EngineRun)
         (cdrc : ConstDataRangeCursor) (dataBuilder : DataBuilder)
  : Completion (CURLcode * TransferInfo * ConstDataRangeCursor * DataBuilder) :=
  match r with
  | Finish result info => Normal (result, info, cdrc, dataBuilder)
  | InvokeRead buffer size nitems k =>
      match ReadMemoryCallback buffer size nitems cdrc with
      | Normal (buffer', cdrc', n) => run_engine alloc (k buffer' n) cdrc' dataBuilder
      | Thrown e => Thrown e
      | Aborted => Aborted
      end
  | InvokeWrite ptr size nmemb k =>
      let '(n, dataBuilder') := WriteMemoryCallback alloc ptr size nmemb dataBuilder in
      run_engine alloc (k n) cdrc dataBuilder'
  end.

Definition curl_easy_perform (w : World) (h : CURL)
           (cdrc : ConstDataRangeCursor) (dataBuilder : DataBuilder)
  : M (CURLcode * TransferInfo * ConstDataRangeCursor * DataBuilder) :=
  fun p => (run_engine (allocator w) (engine_perform w h) cdrc dataBuilder, p).

Definition curl_easy_getinfo_response_code (info : TransferInfo) : CURLcode * Z :=
  (getinfo_result info, response_code info).

(** ** CurlHttpClient::doPost *)

(** [s.c_str()] as a C function reads it: the characters before the first
    NUL. *)
Fixpoint c_str (s : string) : string :=
  match s with
  | EmptyString => EmptyString
  | String c rest =>
      if Ascii.eqb c Ascii.zero then EmptyString else String c (c_str rest)
  end.

(** [setopt w h o]: [curl_easy_setopt(myHandle.get(), o)] with its return
    value dropped, as everywhere in [doPost]. *)
Definition setopt (w : World) (h : CURL) (o : CurlOption) : CURL :=
  fst (curl_easy_setopt w h o).

Section DoPost.
Variable w : World.
Variable urlString : string.
Variable cdr : list byte.

Local Open Scope post_scope.

(** The body of the [try] block. *)
Definition doPost_try : M unit :=
  let cdrc := Cursor.make cdr in
  match curl_easy_init w with
  | None =>
      st <- construct w AtHandleFailureStatus
              (mkStatus ErrorCodes.InternalError "Curl initialization failed") ;;
      setError st
  | Some myHandle =>
      let myHandle := setopt w myHandle (CURLOPT_URL (c_str urlString)) in
      let myHandle := setopt w myHandle (CURLOPT_POST 1) in
      (* Allow http only if test commands are enabled *)
      let myHandle :=
        if getTestCommandsEnabled w
        then setopt w myHandle (CURLOPT_PROTOCOLS (Z.lor CURLPROTO_HTTPS CURLPROTO_HTTP))
        else setopt w myHandle (CURLOPT_PROTOCOLS CURLPROTO_HTTPS) in
      let myHandle := setopt w myHandle (CURLOPT_HTTP_VERSION CURL_HTTP_VERSION_1_1) in
      dataBuilder <- construct w AtDataBuilder (Builder.make 4096) ;;
      let myHandle := setopt w myHandle (CURLOPT_WRITEFUNCTION fn_WriteMemoryCallback) in
      let myHandle := setopt w myHandle (CURLOPT_WRITEDATA addr_dataBuilder) in
      let myHandle := setopt w myHandle (CURLOPT_READFUNCTION fn_ReadMemoryCallback) in
      let myHandle := setopt w myHandle (CURLOPT_READDATA addr_cdrc) in
      let myHandle :=
        setopt w myHandle (CURLOPT_POSTFIELDSIZE (to_long (Cursor.length cdrc))) in
      let myHandle :=
        setopt w myHandle (CURLOPT_CONNECTTIMEOUT (kConnectionTimeoutSeconds w)) in
      let myHandle :=
        setopt w myHandle (CURLOPT_TIMEOUT (kTotalRequestTimeoutSeconds w)) in
      let myHandle :=
        if 467456 <? LIBCURL_VERSION_NUM w   (* 0x072200 *)
        then setopt w myHandle (CURLOPT_SSLVERSION CURL_SSLVERSION_TLSv1_2)
        else myHandle in
      let myHandle := setopt w myHandle (CURLOPT_FOLLOWLOCATION 0) in
      let myHandle := setopt w myHandle (CURLOPT_NOSIGNAL 1) in
      let chunk : curl_slist := None in
      let chunk := curl_slist_append w chunk "Content-Type: application/octet-stream" in
      let chunk := curl_slist_append w chunk "Accept: application/octet-stream" in
      (* the empty Expect: no 100-Continue round trip *)
      let chunk := curl_slist_append w chunk "Expect:" in
      let myHandle := setopt w myHandle (CURLOPT_HTTPHEADER chunk) in
      '(result, info, cdrc, dataBuilder) <-
         curl_easy_perform w myHandle cdrc dataBuilder ;;
      if negb (result =? CURLE_OK) then
        st <- construct w AtTransportFailureStatus
                (mkStatus ErrorCodes.OperationFailed
                          ("Bad HTTP response from API server: "
                             ++ engine_strerror w result)) ;;
        setError st
      else
        let '(result, statusCode) := curl_easy_getinfo_response_code info in
        if negb (result =? CURLE_OK) then
          st <- construct w AtGetinfoFailureStatus
                  (mkStatus ErrorCodes.OperationFailed
                            ("Unexpected error retrieving response: "
                               ++ engine_strerror w result)) ;;
          setError st
        else if negb (statusCode =? 200) then
          st <- construct w AtStatusCodeStatus
                  (mkStatus ErrorCodes.OperationFailed
                            ("Unexpected http status code from server: "
                               ++ string_of_long statusCode)) ;;
          setError st
        else
          let d := Builder.getCursor dataBuilder in
          v <- construct w AtResponseVector
                 (firstn (Z.to_nat (Cursor.length d)) (Cursor.data d)) ;;
          emplaceValue v
  end.

(** [try { ... } catch (...) { shared_promise.setError(exceptionToStatus()); }] *)
Definition doPost : M unit :=
  try_catch doPost_try (fun e => setError (exceptionToStatus w e)).

End DoPost.

(** ** What a transfer looks like from outside *)

(** The request headers as [doPost] builds them. *)
Definition request_headers (w : World) : curl_slist :=
  curl_slist_append w
    (curl_slist_append w
       (curl_slist_append w None "Content-Type: application/octet-stream")
       "Accept: application/octet-stream")
    "Expect:".

(** The options [doPost] has asked for by the time it calls
    [curl_easy_perform], oldest first. *)
Definition requested_options (w : World) (urlString : string) (cdr : list byte)
  : CURL :=
  ([ CURLOPT_URL (c_str urlString);
     CURLOPT_POST 1;
     CURLOPT_PROTOCOLS (if getTestCommandsEnabled w
                        then Z.lor CURLPROTO_HTTPS CURLPROTO_HTTP
                        else CURLPROTO_HTTPS);
     CURLOPT_HTTP_VERSION CURL_HTTP_VERSION_1_1;
     CURLOPT_WRITEFUNCTION fn_WriteMemoryCallback;
     CURLOPT_WRITEDATA addr_dataBuilder;
     CURLOPT_READFUNCTION fn_ReadMemoryCallback;
     CURLOPT_READDATA addr_cdrc;
     CURLOPT_POSTFIELDSIZE (to_long (Cursor.length (Cursor.make cdr)));
     CURLOPT_CONNECTTIMEOUT (kConnectionTimeoutSeconds w);
     CURLOPT_TIMEOUT (kTotalRequestTimeoutSeconds w) ]
   ++ (if 467456 <? LIBCURL_VERSION_NUM w
       then [ CURLOPT_SSLVERSION CURL_SSLVERSION_TLSv1_2 ]
       else [])
   ++ [ CURLOPT_FOLLOWLOCATION 0;
        CURLOPT_NOSIGNAL 1;
        CURLOPT_HTTPHEADER (request_headers w) ])%list.

(** The engine's side of the transfer [doPost] starts: the run of
    [curl_easy_perform] on the handle above, against the cursor over the
    payload and a fresh builder. *)
Definition transfer (w : World) (urlString : string) (cdr : list byte)
  : Completion (CURLcode * TransferInfo * ConstDataRangeCursor * DataBuilder) :=
  run_engine (allocator w) (engine_perform w (requested_options w urlString cdr))
             (Cursor.make cdr) (Builder.make 4096).

(** No C++ construction inside [doPost] throws. *)
Definition nothrow (w : World) : Prop := forall site, throws w site = None.

(** The chunks of response body the builder accepted during a run. *)
Fixpoint accepted (alloc : Builder.Allocator) (r : EngineRun)
         (cdrc : ConstDataRangeCursor) (dataBuilder : DataBuilder)
  : list (list byte) :=
  match r with
  | Finish _ _ => []
  | InvokeRead buffer size nitems k =>
      match ReadMemoryCallback buffer size nitems cdrc with
      | Normal (buffer', cdrc', n) => accepted alloc (k buffer' n) cdrc' dataBuilder
      | _ => []
      end
  | InvokeWrite ptr size nmemb k =>
      let '(n, dataBuilder') := WriteMemoryCallback alloc ptr size nmemb dataBuilder in
      let chunk := ConstDataRange ptr (size_mul size nmemb) in
      if isOK (fst (Builder.writeAndAdvance alloc dataBuilder chunk))
      then chunk :: accepted alloc (k n) cdrc dataBuilder'
      else accepted alloc (k n) cdrc dataBuilder'
  end.

(** How the engine reads the scheme of a URL: the [CURLPROTO_*] bit of the
    scheme, or nothing when it cannot make sense of the URL.  The parser is
    the engine's own and is not fixed here. *)
Definition SchemeReader : Type := string -> option Z.

(** The last [CURLOPT_PROTOCOLS] mask set on a handle. *)
Fixpoint allowed_protocols (h : CURL) : option Z :=
  match h with
  | [] => None
  | o :: rest =>
      match allowed_protocols rest with
      | Some m => Some m
      | None => match o with CURLOPT_PROTOCOLS m => Some m | _ => None end
      end
  end.

(** The last [CURLOPT_URL] set on a handle. *)
Fixpoint target_url (h : CURL) : option string :=
  match h with
  | [] => None
  | o :: rest =>
      match target_url rest with
      | Some u => Some u
      | None => match o with CURLOPT_URL u => Some u | _ => None end
      end
  end.

(** The engine's documented contract for [CURLOPT_PROTOCOLS]: a transfer
    whose URL the engine reads as having a scheme outside the allowed mask is
    refused with [CURLE_UNSUPPORTED_PROTOCOL] before anything is sent or
    received.  Nothing is asked of the engine for a URL it cannot read. *)
Definition enforces_protocols (scheme : SchemeReader) (w : World) : Prop :=
  forall h url mask bit,
    target_url h = Some url ->
    allowed_protocols h = Some mask ->
    scheme url = Some bit ->
    Z.land bit mask = 0 ->
    exists info, engine_perform w h = Finish CURLE_UNSUPPORTED_PROTOCOL info.

(** An engine that applies the protocol mask in front of [inner]: it refuses
    a URL whose scheme is outside the mask and otherwise does what [inner]
    does. *)
Definition gated (scheme : SchemeReader) (inner : CURL -> EngineRun)
  : CURL -> EngineRun :=
  fun h =>
    match target_url h, allowed_protocols h with
    | Some url, Some mask =>
        match scheme url with
        | Some bit =>
            if Z.land bit mask =? 0
            then Finish CURLE_UNSUPPORTED_PROTOCOL (mkInfo CURLE_OK 0)
            else inner h
        | None => inner h
        end
    | _, _ => inner h
    end.

(** What [doPost] does once [curl_easy_perform] has returned, stated on its
    own so that the paths can be told apart; [doPost_try_acquired] below
    shows that this is the tail of [doPost_try]. *)
Definition after_perform (w : World) (result : CURLcode) (info : TransferInfo)
           (dataBuilder : DataBuilder) : M unit :=
  (if negb (result =? CURLE_OK) then
     st <- construct w AtTransportFailureStatus
             (mkStatus ErrorCodes.OperationFailed
                       ("Bad HTTP response from API server: "
                          ++ engine_strerror w result)) ;;
     setError st
   else
     let '(result, statusCode) := curl_easy_getinfo_response_code info in
     if negb (result =? CURLE_OK) then
       st <- construct w AtGetinfoFailureStatus
               (mkStatus ErrorCodes.OperationFailed
                         ("Unexpected error retrieving response: "
                            ++ engine_strerror w result)) ;;
       setError st
     else if negb (statusCode =? 200) then
       st <- construct w AtStatusCodeStatus
               (mkStatus ErrorCodes.OperationFailed
                         ("Unexpected http status code from server: "
                            ++ string_of_long statusCode)) ;;
       setError st
     else
       let d := Builder.getCursor dataBuilder in
       v <- construct w AtResponseVector
              (firstn (Z.to_nat (Cursor.length d)) (Cursor.data d)) ;;
       emplaceValue v)%post.

(** The same world with other return codes for [curl_easy_setopt]. *)
Definition with_setopt (w : World) (rc : CURL -> CurlOption -> CURLcode)
  : World :=
  mkWorld (engine_global_init w) (engine_features w) (engine_easy_init w)
          rc (engine_slist_append w) (engine_perform w) (engine_strerror w)
          (getTestCommandsEnabled w) (LIBCURL_VERSION_NUM w)
          (kConnectionTimeoutSeconds w) (kTotalRequestTimeoutSeconds w)
          (allocator w) (throws w) (exceptionToStatus w).

(** The same world with another engine behind [curl_easy_perform]. *)
Definition with_perform (w : World) (perform : CURL -> EngineRun) : World :=
  mkWorld (engine_global_init w) (engine_features w) (engine_easy_init w)
          (engine_setopt w) (engine_slist_append w) perform (engine_strerror w)
          (getTestCommandsEnabled w) (LIBCURL_VERSION_NUM w)
          (kConnectionTimeoutSeconds w) (kTotalRequestTimeoutSeconds w)
          (allocator w) (throws w) (exceptionToStatus w).

(** An engine that only inspects the handle it is given: it answers 200 with
    an empty body when [test] holds of the handle and fails (code 42,
    CURLE_ABORTED_BY_CALLBACK) when it does not. *)
Definition probe (test : CURL -> bool) : CURL -> EngineRun :=
  fun h =>
    if test h then Finish CURLE_OK (mkInfo CURLE_OK 200)
    else Finish 42 (mkInfo CURLE_OK 200).

(** [handed w urlString cdr h]: [h] is the handle [doPost] gives to
    [curl_easy_perform] in world [w].  Whatever an engine put in the place of
    [w]'s tests about the handle it receives, [doPost] resolves the promise
    to the empty value exactly when the test holds of [h]. *)
Definition handed (w : World) (urlString : string) (cdr : list byte) (h : CURL)
  : Prop :=
  forall test : CURL -> bool,
    doPost (with_perform w (probe test)) urlString cdr []
    = (Normal tt, [EmplaceValue []])
    <-> test h = true.

(** ** Concrete worlds *)

Module Sample.

(** An allocator that never has anything to give. *)
Definition exhausted : Builder.Allocator := fun _ _ => 0%nat.

(** An allocator that always gives what is needed. *)
Definition plentiful : Builder.Allocator := fun _ needed => needed.

Definition strerror (c : CURLcode) : string :=
  if c =? CURLE_OK then "No error"
  else if c =? CURLE_UNSUPPORTED_PROTOCOL then "Unsupported protocol"
  else if c =? CURLE_WRITE_ERROR then "Failed writing received data to disk/application"
  else "Unknown error".

Definition to_status (e : Exception) : Status :=
  match e with
  | BadAlloc => mkStatus ErrorCodes.UnknownError "std::bad_alloc"
  | DBException s => s
  | StdException what => mkStatus ErrorCodes.UnknownError what
  end.

(** A world put together from the parts that vary between scenarios. *)
Definition world (startup : CURLcode) (features : Z) (handle testMode : bool)
           (run : CURL -> EngineRun) (alloc : Builder.Allocator)
           (thr : ThrowSite -> option Exception) : World :=
  mkWorld (fun _ _ => startup) features handle
          (fun _ _ => CURLE_OK) (fun _ _ => true) run strerror
          testMode 474880 60 120 alloc thr to_status.

Definition never : ThrowSite -> option Exception := fun _ => None.

Definition body : list byte := [x68; x69].   (* "hi" *)

(** A server that takes the request body and answers [status] with [body],
    delivered in two pieces. *)
Definition server (status : Z) (h : CURL) : EngineRun :=
  InvokeRead [x00; x00; x00; x00] 1 4 (fun _ _ =>
  InvokeWrite [x68] 1 1 (fun n1 =>
  if n1 =? 1 then
    InvokeWrite [x69] 1 1 (fun n2 =>
    if n2 =? 1 then Finish CURLE_OK (mkInfo CURLE_OK status)
    else Finish CURLE_WRITE_ERROR (mkInfo CURLE_OK status))
  else Finish CURLE_WRITE_ERROR (mkInfo CURLE_OK status))).

(** A reader of schemes that pays no regard to case and knows http and
    https only. *)
Definition to_lower (c : ascii) : ascii :=
  let n := nat_of_ascii c in
  if ((65 <=? n) && (n <=? 90))%nat then ascii_of_nat (n + 32) else c.

Fixpoint lower (s : string) : string :=
  match s with
  | EmptyString => EmptyString
  | String c rest => String (to_lower c) (lower rest)
  end.

Definition scheme_of : SchemeReader :=
  fun url =>
    if String.prefix "https://" (lower url) then Some CURLPROTO_HTTPS
    else if String.prefix "http://" (lower url) then Some CURLPROTO_HTTP
    else None.

(** An engine that honours [CURLOPT_PROTOCOLS] and otherwise behaves as
    [server 200]. *)
Definition guarded : CURL -> EngineRun := gated scheme_of (server 200).

Definition healthy (status : Z) : World :=
  world CURLE_OK CURL_VERSION_SSL true false (server status) plentiful never.

Definition production : World :=
  world CURLE_OK CURL_VERSION_SSL true false guarded plentiful never.

(** Start-up of the engine fails with code 2 (CURLE_FAILED_INIT). *)
Definition startup_fails : World :=
  world 2 CURL_VERSION_SSL true false (server 200) plentiful never.

(** The engine was built without TLS. *)
Definition no_tls : World :=
  world CURLE_OK 0 true false (server 200) plentiful never.

(** Building the response vector runs out of memory. *)
Definition vector_throws : World :=
  world CURLE_OK CURL_VERSION_SSL true false (server 200) plentiful
        (fun site => match site with AtResponseVector => Some BadAlloc | _ => None end).

Definition g0 : CurlGlobal := mkGlobal 0 0.

Definition payload : list byte := [x01; x02; x03].

End Sample.

(** ** The rest of the translation unit *)

(** The request body the engine has pulled in during a run: what each call
    of the read-out callback put into the engine's buffer, in order. *)
Fixpoint pulled (alloc : Builder.Allocator) (r : EngineRun)
         (cdrc : ConstDataRangeCursor) (dataBuilder : DataBuilder)
  : list byte :=
  match r with
  | Finish _ _ => []
  | InvokeRead buffer size nitems k =>
      match ReadMemoryCallback buffer size nitems cdrc with
      | Normal (buffer', cdrc', n) =>
          (firstn (Z.to_nat n) buffer' ++ pulled alloc (k buffer' n) cdrc' dataBuilder)%list
      | _ => []
      end
  | InvokeWrite ptr size nmemb k =>
      let '(n, dataBuilder') := WriteMemoryCallback alloc ptr size nmemb dataBuilder in
      pulled alloc (k n) cdrc dataBuilder'
  end.

(** The chunks of response body the engine offered to the write-in callback
    during a run, accepted or not. *)
Fixpoint offered (alloc : Builder.Allocator) (r : EngineRun)
         (cdrc : ConstDataRangeCursor) (dataBuilder : DataBuilder)
  : list (list byte) :=
  match r with
  | Finish _ _ => []
  | InvokeRead buffer size nitems k =>
      match ReadMemoryCallback buffer size nitems cdrc with
      | Normal (buffer', cdrc', n) => offered alloc (k buffer' n) cdrc' dataBuilder
      | _ => []
      end
  | InvokeWrite ptr size nmemb k =>
      let '(n, dataBuilder') := WriteMemoryCallback alloc ptr size nmemb dataBuilder in
      ConstDataRange ptr (size_mul size nmemb) :: offered alloc (k n) cdrc dataBuilder'
  end.

(** The engine's documented contract for [CURLOPT_WRITEFUNCTION], the one the
    comment in [WriteMemoryCallback] relies on: a return value different from
    the count offered ends the transfer with [CURLE_WRITE_ERROR]. *)
Inductive aborts_on_short_write : EngineRun -> Prop :=
| short_write_finish result info :
    aborts_on_short_write (Finish result info)
| short_write_read buffer size nitems k :
    (forall buffer' n, aborts_on_short_write (k buffer' n)) ->
    aborts_on_short_write (InvokeRead buffer size nitems k)
| short_write_write ptr size nmemb k :
    (forall n, n <> size_mul size nmemb ->
               exists info, k n = Finish CURLE_WRITE_ERROR info) ->
    aborts_on_short_write (k (size_mul size nmemb)) ->
    aborts_on_short_write (InvokeWrite ptr size nmemb k).

(** Which option a [curl_easy_setopt] call sets, whatever the value. *)
Definition option_kind (o : CurlOption) : nat :=
  match o with
  | CURLOPT_URL _ => 0
  | CURLOPT_POST _ => 1
  | CURLOPT_PROTOCOLS _ => 2
  | CURLOPT_HTTP_VERSION _ => 3
  | CURLOPT_WRITEFUNCTION _ => 4
  | CURLOPT_WRITEDATA _ => 5
  | CURLOPT_READFUNCTION _ => 6
  | CURLOPT_READDATA _ => 7
  | CURLOPT_POSTFIELDSIZE _ => 8
  | CURLOPT_CONNECTTIMEOUT _ => 9
  | CURLOPT_TIMEOUT _ => 10
  | CURLOPT_SSLVERSION _ => 11
  | CURLOPT_FOLLOWLOCATION _ => 12
  | CURLOPT_NOSIGNAL _ => 13
  | CURLOPT_HTTPHEADER _ => 14
  end%nat.

(** *** CurlHttpClient::postAsync *)

(** Modelled from the spec: the thread-pool task executor
    (mongo/executor/thread_pool_task_executor.h is not part of the sources at
    hand).  "A thread-pool scheduler exposing submit(unit of work) ->
    accepted/rejected", which "accepts a unit of work and runs it on some
    worker".  [scheduleWork] returns the executor's answer together with what
    the pool will run: the work when it was accepted, nothing otherwise. *)
Record Executor : Set := mkExecutor {
  schedule_status : Status
}.

Definition scheduleWork (executor : Executor) (work : M unit)
  : Status * M unit :=
  (schedule_status executor,
   if isOK (schedule_status executor) then work else ret tt).

(** [uassertStatusOK(status)]: throws the status unless it is OK. *)
Definition uassertStatusOK (st : Status) : Completion unit :=
  if isOK st then Normal tt else Thrown (DBException st).

(** What the caller of [postAsync] gets (a normal return hands over the
    future, otherwise the exception), and the promise behind that future once
    the pool has run what it accepted. *)
Definition postAsync (w : World) (executor : Executor)
           (url : string) (data : list byte)
  : Completion unit * SharedPromise :=
  let pf : SharedPromise := [] in
  let urlString := url in
  let '(status, pending) :=
    scheduleWork executor
      (let cdr := ConstDataRange data (Z.of_nat (List.length data)) in
       doPost w urlString cdr) in
  (uassertStatusOK status, snd (pending pf)).

(** ** Further concrete worlds *)

Module Scenario.

(** The engine cannot hand out a transfer handle. *)
Definition no_handle : World :=
  Sample.world CURLE_OK CURL_VERSION_SSL false false (Sample.server 200)
               Sample.plentiful Sample.never.

(** The connection fails (code 7, CURLE_COULDNT_CONNECT) although the engine
    would report status 200. *)
Definition unreachable : World :=
  Sample.world CURLE_OK CURL_VERSION_SSL true false
               (fun _ => Finish 7 (mkInfo CURLE_OK 200))
               Sample.plentiful Sample.never.

(** The transfer succeeds but the status cannot be retrieved (code 48,
    CURLE_UNKNOWN_OPTION). *)
Definition opaque_status : World :=
  Sample.world CURLE_OK CURL_VERSION_SSL true false
               (fun _ => Finish CURLE_OK (mkInfo 48 200))
               Sample.plentiful Sample.never.

(** A server whose answer is larger than the room reserved, met by an
    allocator with nothing to give. *)
Definition flood (h : CURL) : EngineRun :=
  InvokeWrite (repeat x00 5000) 1 5000 (fun n =>
  if n =? 5000 then Finish CURLE_OK (mkInfo CURLE_OK 200)
  else Finish CURLE_WRITE_ERROR (mkInfo CURLE_OK 200)).

Definition flooded : World :=
  Sample.world CURLE_OK CURL_VERSION_SSL true false flood
               Sample.exhausted Sample.never.

Definition accepting : Executor := mkExecutor Status_OK.

Definition shut_down : Executor :=
  mkExecutor (mkStatus ErrorCodes.BadValue "work rejected").

End Scenario.

(** * Properties *)

(** Unfolds the monadic plumbing of the tail of [doPost_try]. *)
Ltac unfold_post :=
  unfold after_perform, curl_easy_getinfo_response_code, bind, construct,
    setError, emplaceValue.

Tactic Notation "unfold_post" "in" hyp_list(Hs) :=
  unfold after_perform, curl_easy_getinfo_response_code, bind, construct,
    setError, emplaceValue in Hs.

(** Tells which values an option has on the requested handle, by going
    through the handle entry by entry. *)
Ltac read_handle H :=
  repeat match type of H with
         | _ \/ _ => destruct H as [H | H]
         end;
  try discriminate; try contradiction; try congruence; subst; auto 20.

(** ** Arithmetic and list facts used throughout *)

Lemma size_mul_range (a b : Z) : 0 <= size_mul a b < size_t_modulus.
Proof.
  unfold size_mul, wrap_size_t. apply Z.mod_pos_bound. reflexivity.
Qed.

Lemma size_mul_exact (a b : Z) :
  0 <= a * b < size_t_modulus -> size_mul a b = a * b.
Proof.
  intros H. unfold size_mul, wrap_size_t. now apply Z.mod_small.
Qed.

Lemma cursor_length_nonneg (c : ConstDataRangeCursor) : 0 <= Cursor.length c.
Proof. unfold Cursor.length. lia. Qed.

Lemma cursor_length_data (c : ConstDataRangeCursor) :
  Cursor.length c = Z.of_nat (List.length (Cursor.data c)).
Proof.
  unfold Cursor.length, Cursor.data. now rewrite length_skipn.
Qed.

Lemma memcpy_zero (dst src : list byte) : memcpy dst src 0 = dst.
Proof. reflexivity. Qed.

Lemma memcpy_prefix (dst src : list byte) (n : Z) :
  0 <= n <= Z.of_nat (List.length src) ->
  firstn (Z.to_nat n) (memcpy dst src n) = firstn (Z.to_nat n) src.
Proof.
  intros H. unfold memcpy.
  rewrite firstn_app, firstn_firstn, Nat.min_id, length_firstn.
  replace (Z.to_nat n - Nat.min (Z.to_nat n) (List.length src))%nat with 0%nat by lia.
  now rewrite firstn_O, app_nil_r.
Qed.

Lemma memcpy_suffix (dst src : list byte) (n : Z) :
  0 <= n <= Z.of_nat (List.length src) ->
  skipn (Z.to_nat n) (memcpy dst src n) = skipn (Z.to_nat n) dst.
Proof.
  intros H. unfold memcpy.
  rewrite skipn_app, length_firstn.
  replace (Z.to_nat n - Nat.min (Z.to_nat n) (List.length src))%nat with 0%nat by lia.
  rewrite skipn_firstn_comm, Nat.sub_diag, firstn_O. reflexivity.
Qed.

(** ** The read-out callback *)

Lemma advance_within (c : ConstDataRangeCursor) (n : Z) :
  n <= Cursor.length c ->
  Cursor.advance c n
  = (Status_OK, mkCursor (cdrc_bytes c) (cdrc_begin c + Z.to_nat n)).
Proof.
  intros H. unfold Cursor.advance.
  destruct (Z.ltb_spec (Cursor.length c) n); [lia | reflexivity].
Qed.

(** The callback always returns, and what it returns is determined by
    [min(size * nitems, remaining)]. *)
Lemma ReadMemoryCallback_eq
      (buffer : list byte) (size nitems : Z) (cdrc : ConstDataRangeCursor) :
  let n := Z.min (size_mul size nitems) (Cursor.length cdrc) in
  ReadMemoryCallback buffer size nitems cdrc
  = Normal (memcpy buffer (Cursor.data cdrc) n,
            mkCursor (cdrc_bytes cdrc) (cdrc_begin cdrc + Z.to_nat n),
            n).
Proof.
  intros n.
  pose proof (size_mul_range size nitems) as Hreq.
  pose proof (cursor_length_nonneg cdrc) as Hrem.
  unfold ReadMemoryCallback.
  destruct (Z.ltb_spec 0 (Cursor.length cdrc)) as [Hpos | Hzero].
  - cbv zeta. rewrite advance_within by (apply Z.le_min_r). reflexivity.
  - assert (Hn0 : n = 0) by (subst n; lia).
    rewrite Hn0, memcpy_zero. simpl Z.to_nat.
    rewrite Nat.add_0_r. destruct cdrc; reflexivity.
Qed.

(** C3.  For every engine buffer, every [size], [nitems] and every cursor, the
    read-out callback returns normally with [n = min(size * nitems, remaining)]:
    the first [n] bytes of the engine's buffer are now the first [n] unread
    bytes, the rest of the buffer is untouched, the cursor has moved forward by
    exactly [n] (so [n] fewer bytes remain and the unread region lost its
    first [n] bytes), and [n] is the value returned.  [n] exceeds neither the
    request nor what remained, and it is 0 when nothing remained. *)
Theorem ReadMemoryCallback_copies_min
        (buffer : list byte) (size nitems : Z) (cdrc : ConstDataRangeCursor) :
  let requested := size_mul size nitems in
  let remaining := Cursor.length cdrc in
  let n := Z.min requested remaining in
  let buffer' := memcpy buffer (Cursor.data cdrc) n in
  let cdrc' := mkCursor (cdrc_bytes cdrc) (cdrc_begin cdrc + Z.to_nat n) in
  ReadMemoryCallback buffer size nitems cdrc = Normal (buffer', cdrc', n)
  /\ firstn (Z.to_nat n) buffer' = firstn (Z.to_nat n) (Cursor.data cdrc)
  /\ skipn (Z.to_nat n) buffer' = skipn (Z.to_nat n) buffer
  /\ Cursor.length cdrc' = remaining - n
  /\ Cursor.data cdrc' = skipn (Z.to_nat n) (Cursor.data cdrc)
  /\ 0 <= n <= requested
  /\ n <= remaining
  /\ (remaining = 0 -> n = 0).
Proof.
  intros requested remaining n buffer' cdrc'.
  pose proof (size_mul_range size nitems) as Hreq.
  pose proof (cursor_length_nonneg cdrc) as Hrem.
  pose proof (cursor_length_data cdrc) as Hdata.
  assert (Hn : 0 <= n <= requested /\ n <= remaining)
    by (subst n requested remaining; lia).
  split; [| repeat split].
  - apply ReadMemoryCallback_eq.
  - apply memcpy_prefix. subst remaining. lia.
  - apply memcpy_suffix. subst remaining. lia.
  - subst cdrc'. unfold Cursor.length at 1. simpl.
    subst remaining. unfold Cursor.length in *. lia.
  - subst cdrc'. unfold Cursor.data. simpl.
    rewrite skipn_skipn. f_equal. lia.
  - lia.
  - lia.
  - lia.
  - lia.
Qed.

Lemma ReadMemoryCallback_copies_min_witness :
  Z.min (size_mul 1 16) (Cursor.length (mkCursor Sample.payload 3)) = 0.
Proof.
  apply (ReadMemoryCallback_copies_min [x00; x00] 1 16 (mkCursor Sample.payload 3)).
  reflexivity.
Defined.

(** ** The write-in callback *)

Lemma writeAndAdvance_written
      (alloc : Builder.Allocator) (b : DataBuilder) (value : list byte) :
  let r := Builder.writeAndAdvance alloc b value in
  written (snd r)
  = if isOK (fst r) then (written b ++ value)%list else written b.
Proof.
  unfold Builder.writeAndAdvance.
  destruct (Builder.fits b value); [reflexivity |].
  destruct (Builder.fits _ value); reflexivity.
Qed.

(** An append can only fail when there is something to append. *)
Lemma writeAndAdvance_failure
      (alloc : Builder.Allocator) (b : DataBuilder) (value : list byte) :
  isOK (fst (Builder.writeAndAdvance alloc b value)) = false ->
  (0 < List.length value)%nat.
Proof.
  unfold Builder.writeAndAdvance, Builder.fits.
  destruct (Nat.leb_spec (List.length value) (unwritten b)) as [| Hlarge];
    [discriminate |].
  intros _. lia.
Qed.

Lemma WriteMemoryCallback_eq
      (alloc : Builder.Allocator) (ptr : list byte) (size nmemb : Z)
      (data : DataBuilder) :
  let r := Builder.writeAndAdvance alloc data
             (ConstDataRange ptr (size_mul size nmemb)) in
  WriteMemoryCallback alloc ptr size nmemb data
  = (if isOK (fst r) then size_mul size nmemb else 0, snd r).
Proof.
  unfold WriteMemoryCallback.
  destruct (Builder.writeAndAdvance alloc data _) as [st mem]. simpl.
  destruct (isOK st); reflexivity.
Qed.

(** C4.  For every invocation of the write-in callback, with
    [offered = size * nmemb]: the builder it leaves behind is the one the
    append left behind; when the append succeeds it returns [offered] and the
    builder holds the offered bytes after what it held before; when the
    append fails it returns 0, which differs from [offered], and the builder
    holds what it held before.  The count is all the callback hands back: it
    neither throws nor aborts. *)
Theorem WriteMemoryCallback_reports_by_count
        (alloc : Builder.Allocator) (ptr : list byte) (size nmemb : Z)
        (data : DataBuilder) :
  let offered := size_mul size nmemb in
  let appended := Builder.writeAndAdvance alloc data (ConstDataRange ptr offered) in
  let returned := fst (WriteMemoryCallback alloc ptr size nmemb data) in
  let mem := snd (WriteMemoryCallback alloc ptr size nmemb data) in
  mem = snd appended
  /\ (isOK (fst appended) = true ->
      returned = offered
      /\ written mem = (written data ++ ConstDataRange ptr offered)%list)
  /\ (isOK (fst appended) = false ->
      returned = 0
      /\ returned <> offered
      /\ written mem = written data).
Proof.
  intros offered appended returned mem.
  subst returned mem. rewrite WriteMemoryCallback_eq. fold offered. fold appended.
  cbn [fst snd].
  pose proof (writeAndAdvance_written alloc data (ConstDataRange ptr offered))
    as Hwritten. cbv zeta in Hwritten. fold appended in Hwritten.
  split; [reflexivity |]. split; intros Hst; rewrite Hst in *.
  - split; [reflexivity | exact Hwritten].
  - split; [reflexivity |]. split; [| exact Hwritten].
    apply writeAndAdvance_failure in Hst.
    unfold ConstDataRange in Hst. rewrite length_firstn in Hst. lia.
Qed.

Lemma WriteMemoryCallback_reports_by_count_witness :
  fst (WriteMemoryCallback Sample.exhausted [x68; x69] 1 2 (mkBuilder [x00] 1)) = 0
  /\ fst (WriteMemoryCallback Sample.exhausted [x68; x69] 1 2 (mkBuilder [x00] 1))
     <> size_mul 1 2
  /\ written (snd (WriteMemoryCallback Sample.exhausted [x68; x69] 1 2
                                       (mkBuilder [x00] 1)))
     = written (mkBuilder [x00] 1).
Proof.
  apply (proj2 (proj2 (WriteMemoryCallback_reports_by_count
                         Sample.exhausted [x68; x69] 1 2 (mkBuilder [x00] 1)))).
  reflexivity.
Defined.

(** ** The library manager *)

Lemma initialize_when_initialized (w : World) (self : CurlLibraryManager)
      (g : CurlGlobal) :
  _initialized self = true ->
  Manager.initialize w self g = (Status_OK, self, g).
Proof.
  intros H. unfold Manager.initialize. now rewrite H.
Qed.

(** A successful call leaves the flag set; it reached the engine exactly when
    the flag was clear beforehand. *)
Lemma initialize_success (w : World) (self self' : CurlLibraryManager)
      (g g' : CurlGlobal) (st : Status) :
  Manager.initialize w self g = (st, self', g') ->
  isOK st = true ->
  _initialized self' = true
  /\ global_init_calls g'
     = (global_init_calls g + (if _initialized self then 0 else 1))%nat
  /\ global_cleanup_calls g' = global_cleanup_calls g.
Proof.
  unfold Manager.initialize, Manager.curl_global_init.
  destruct (_initialized self) eqn:Hflag.
  - intros [= <- <- <-] _. repeat split; auto; lia.
  - destruct (negb (_ =? CURLE_OK)).
    + intros [= <- <- <-]. discriminate.
    + destruct (Z.land _ _ =? 0).
      * intros [= <- <- <-]. discriminate.
      * intros [= <- <- <-] _. simpl. repeat split; lia.
Qed.

Lemma initialize_times_initialized (w : World) (self : CurlLibraryManager)
      (g : CurlGlobal) (n : nat) :
  _initialized self = true ->
  Manager.initialize_times w n self g = (repeat Status_OK n, self, g).
Proof.
  intros H. induction n as [| n IH]; simpl; [reflexivity |].
  rewrite initialize_when_initialized by exact H. now rewrite IH.
Qed.

(** C7.  Once a call of [initialize] has succeeded, every later call returns
    success and changes neither the manager nor the engine: global start-up
    is not performed again, however many calls follow.  Starting from a
    manager whose flag is clear, the first call has performed global start-up
    exactly once, so two calls in a row return success twice with one
    start-up. *)
Theorem initialize_idempotent
        (w : World) (self self1 : CurlLibraryManager) (g g1 : CurlGlobal)
        (st : Status) :
  Manager.initialize w self g = (st, self1, g1) ->
  isOK st = true ->
  Manager.initialize w self1 g1 = (Status_OK, self1, g1)
  /\ (forall n, Manager.initialize_times w n self1 g1
                = (repeat Status_OK n, self1, g1))
  /\ (_initialized self = false ->
      global_init_calls g1 = S (global_init_calls g)
      /\ Manager.initialize_times w 2 self g = ([st; Status_OK], self1, g1)).
Proof.
  intros Hfirst Hok.
  destruct (initialize_success _ _ _ _ _ _ Hfirst Hok) as (Hflag & Hcalls & _).
  split; [| split].
  - now apply initialize_when_initialized.
  - intros n. now apply initialize_times_initialized.
  - intros Hclear. rewrite Hclear in Hcalls. split; [lia |].
    simpl. rewrite Hfirst.
    now rewrite initialize_when_initialized by exact Hflag.
Qed.

Lemma initialize_idempotent_witness :
  Manager.initialize (Sample.healthy 200) (mkManager true) (mkGlobal 1 0)
  = (Status_OK, mkManager true, mkGlobal 1 0)
  /\ (forall n, Manager.initialize_times (Sample.healthy 200) n
                                         (mkManager true) (mkGlobal 1 0)
                = (repeat Status_OK n, mkManager true, mkGlobal 1 0))
  /\ (_initialized Manager.fresh = false ->
      global_init_calls (mkGlobal 1 0) = S (global_init_calls Sample.g0)
      /\ Manager.initialize_times (Sample.healthy 200) 2 Manager.fresh Sample.g0
         = ([Status_OK; Status_OK], mkManager true, mkGlobal 1 0)).
Proof.
  apply (initialize_idempotent (Sample.healthy 200) Manager.fresh (mkManager true)
                               Sample.g0 (mkGlobal 1 0) Status_OK);
    reflexivity.
Defined.

(** C8, as the claim has it, fails: a failed start-up and a missing TLS
    capability are reported with one and the same error code. *)
Lemma initialize_same_error_code :
  let startup := fst (fst (Manager.initialize Sample.startup_fails Manager.fresh Sample.g0)) in
  let capability := fst (fst (Manager.initialize Sample.no_tls Manager.fresh Sample.g0)) in
  isOK startup = false
  /\ isOK capability = false
  /\ ~ code startup <> code capability.
Proof.
  repeat split. intros H. apply H. reflexivity.
Qed.

(** C8, amended.  On a manager whose flag is clear: when global start-up
    reports a failure, [initialize] fails with [InternalError] and a message
    carrying the engine's code; when start-up succeeds but the engine lacks
    TLS, it fails with [InternalError] too, told apart by its message only;
    in both cases the flag stays clear.  The flag is set only when start-up
    succeeded and TLS is present, and the call then returns success. *)
Theorem initialize_failures
        (w : World) (self : CurlLibraryManager) (g : CurlGlobal) :
  let ret := engine_global_init w g CURL_GLOBAL_ALL in
  let tls := negb (Z.land (engine_features w) CURL_VERSION_SSL =? 0) in
  let result := Manager.initialize w self g in
  _initialized self = false ->
  (ret <> CURLE_OK ->
   fst (fst result)
   = mkStatus ErrorCodes.InternalError
              ("Failed to initialize CURL: " ++ string_of_long ret)
   /\ _initialized (snd (fst result)) = false)
  /\ (ret = CURLE_OK -> tls = false ->
      fst (fst result)
      = mkStatus ErrorCodes.InternalError "Curl lacks SSL support, cannot continue"
      /\ _initialized (snd (fst result)) = false)
  /\ (_initialized (snd (fst result)) = true ->
      ret = CURLE_OK /\ tls = true /\ fst (fst result) = Status_OK).
Proof.
  intros ret tls result Hclear. subst result.
  unfold Manager.initialize, Manager.curl_global_init. rewrite Hclear.
  fold ret. destruct (Z.eqb_spec ret CURLE_OK) as [Hret | Hret]; simpl negb; cbv iota.
  - subst tls. destruct (Z.land _ _ =? 0); simpl;
      repeat split; intros; congruence.
  - simpl. repeat split; intros; congruence.
Qed.

Lemma initialize_failures_witness :
  fst (fst (Manager.initialize Sample.startup_fails Manager.fresh Sample.g0))
  = mkStatus ErrorCodes.InternalError "Failed to initialize CURL: 2"
  /\ _initialized (snd (fst (Manager.initialize Sample.startup_fails Manager.fresh Sample.g0)))
     = false.
Proof.
  apply (initialize_failures Sample.startup_fails Manager.fresh Sample.g0).
  - reflexivity.
  - discriminate.
Defined.

(** ** The engine run *)

(** No run of the engine against the two callbacks aborts or throws. *)
Lemma run_engine_normal (alloc : Builder.Allocator) (r : EngineRun) :
  forall cdrc dataBuilder,
  exists x, run_engine alloc r cdrc dataBuilder = Normal x.
Proof.
  induction r as [result info | buffer size nitems k IH | ptr size nmemb k IH];
    intros cdrc dataBuilder; simpl.
  - eauto.
  - rewrite ReadMemoryCallback_eq. apply IH.
  - destruct (WriteMemoryCallback alloc ptr size nmemb dataBuilder) as [n db'].
    apply IH.
Qed.

(** The builder ends up holding what it held before, followed by the chunks
    it accepted, in order. *)
Lemma run_engine_written (alloc : Builder.Allocator) (r : EngineRun) :
  forall cdrc dataBuilder result info cdrc' dataBuilder',
    run_engine alloc r cdrc dataBuilder
    = Normal (result, info, cdrc', dataBuilder') ->
    written dataBuilder'
    = (written dataBuilder ++ List.concat (accepted alloc r cdrc dataBuilder))%list.
Proof.
  induction r as [result0 info0 | buffer size nitems k IH | ptr size nmemb k IH];
    intros cdrc dataBuilder result info cdrc' dataBuilder'; simpl.
  - intros [= _ _ _ <-]. now rewrite app_nil_r.
  - rewrite ReadMemoryCallback_eq. apply IH.
  - rewrite WriteMemoryCallback_eq. cbv zeta.
    pose proof (writeAndAdvance_written alloc dataBuilder
                  (ConstDataRange ptr (size_mul size nmemb))) as Hwritten.
    cbv zeta in Hwritten.
    destruct (isOK (fst (Builder.writeAndAdvance alloc dataBuilder _)));
      intros Hrun; apply IH in Hrun; rewrite Hrun, Hwritten.
    + simpl. now rewrite app_assoc.
    + reflexivity.
Qed.

(** ** The orchestrator, path by path *)

Lemma requested_options_chain (w : World) (urlString : string) (cdr : list byte) :
  requested_options w urlString cdr
  = let h := setopt w [] (CURLOPT_URL (c_str urlString)) in
    let h := setopt w h (CURLOPT_POST 1) in
    let h := if getTestCommandsEnabled w
             then setopt w h (CURLOPT_PROTOCOLS (Z.lor CURLPROTO_HTTPS CURLPROTO_HTTP))
             else setopt w h (CURLOPT_PROTOCOLS CURLPROTO_HTTPS) in
    let h := setopt w h (CURLOPT_HTTP_VERSION CURL_HTTP_VERSION_1_1) in
    let h := setopt w h (CURLOPT_WRITEFUNCTION fn_WriteMemoryCallback) in
    let h := setopt w h (CURLOPT_WRITEDATA addr_dataBuilder) in
    let h := setopt w h (CURLOPT_READFUNCTION fn_ReadMemoryCallback) in
    let h := setopt w h (CURLOPT_READDATA addr_cdrc) in
    let h := setopt w h (CURLOPT_POSTFIELDSIZE (to_long (Cursor.length (Cursor.make cdr)))) in
    let h := setopt w h (CURLOPT_CONNECTTIMEOUT (kConnectionTimeoutSeconds w)) in
    let h := setopt w h (CURLOPT_TIMEOUT (kTotalRequestTimeoutSeconds w)) in
    let h := if 467456 <? LIBCURL_VERSION_NUM w
             then setopt w h (CURLOPT_SSLVERSION CURL_SSLVERSION_TLSv1_2)
             else h in
    let h := setopt w h (CURLOPT_FOLLOWLOCATION 0) in
    let h := setopt w h (CURLOPT_NOSIGNAL 1) in
    setopt w h (CURLOPT_HTTPHEADER (request_headers w)).
Proof.
  unfold requested_options.
  destruct (getTestCommandsEnabled w), (467456 <? LIBCURL_VERSION_NUM w);
    reflexivity.
Qed.

Lemma doPost_try_no_handle (w : World) (urlString : string) (cdr : list byte) :
  engine_easy_init w = false ->
  doPost_try w urlString cdr
  = (st <- construct w AtHandleFailureStatus
             (mkStatus ErrorCodes.InternalError "Curl initialization failed") ;;
     setError st)%post.
Proof.
  intros H. unfold doPost_try, curl_easy_init. now rewrite H.
Qed.

Lemma doPost_try_acquired (w : World) (urlString : string) (cdr : list byte) :
  engine_easy_init w = true ->
  doPost_try w urlString cdr
  = (dataBuilder <- construct w AtDataBuilder (Builder.make 4096) ;;
     x <- curl_easy_perform w (requested_options w urlString cdr)
            (Cursor.make cdr) dataBuilder ;;
     let '(result, info, _, dataBuilder) := x in
     after_perform w result info dataBuilder)%post.
Proof.
  intros H. rewrite requested_options_chain.
  unfold doPost_try, curl_easy_init. rewrite H. reflexivity.
Qed.

Lemma doPost_catch (w : World) (urlString : string) (cdr : list byte)
      (p : SharedPromise) :
  doPost w urlString cdr p
  = match doPost_try w urlString cdr p with
    | (Thrown e, p') => (Normal tt, (p' ++ [SetError (exceptionToStatus w e)])%list)
    | other => other
    end.
Proof.
  unfold doPost, try_catch, setError.
  destruct (doPost_try w urlString cdr p) as [[u | e |] p']; reflexivity.
Qed.

(** Once the handle is there and the builder has been built, [doPost_try]
    is [after_perform] applied to the outcome of the transfer. *)
Lemma doPost_try_transfer (w : World) (urlString : string) (cdr : list byte)
      (p : SharedPromise) result info cdrc' dataBuilder :
  engine_easy_init w = true ->
  throws w AtDataBuilder = None ->
  transfer w urlString cdr = Normal (result, info, cdrc', dataBuilder) ->
  doPost_try w urlString cdr p = after_perform w result info dataBuilder p.
Proof.
  intros Hinit Hbuilder Hrun.
  rewrite doPost_try_acquired by exact Hinit.
  unfold bind, construct, curl_easy_perform. rewrite Hbuilder.
  unfold transfer in Hrun. rewrite Hrun. reflexivity.
Qed.

Lemma response_vector (dataBuilder : DataBuilder) :
  let d := Builder.getCursor dataBuilder in
  firstn (Z.to_nat (Cursor.length d)) (Cursor.data d) = written dataBuilder.
Proof.
  unfold Builder.getCursor, Cursor.make, Cursor.length, Cursor.data. simpl.
  rewrite Nat.sub_0_r, Nat2Z.id. apply firstn_all.
Qed.

(** Whatever the engine answered, the tail of [doPost_try] either writes the
    promise once or throws before touching it. *)
Lemma after_perform_once_or_throw (w : World) result info dataBuilder
      (p : SharedPromise) :
  (exists wr, after_perform w result info dataBuilder p
              = (Normal tt, (p ++ [wr])%list))
  \/ (exists site e, throws w site = Some e
                     /\ after_perform w result info dataBuilder p = (Thrown e, p)).
Proof.
  unfold_post.
  destruct (negb (result =? CURLE_OK)).
  { destruct (throws w AtTransportFailureStatus) eqn:E; eauto. }
  destruct (negb (getinfo_result info =? CURLE_OK)).
  { destruct (throws w AtGetinfoFailureStatus) eqn:E; eauto. }
  destruct (negb (response_code info =? 200)).
  { destruct (throws w AtStatusCodeStatus) eqn:E; eauto. }
  destruct (throws w AtResponseVector) eqn:E; eauto.
Qed.

Lemma doPost_try_once_or_throw (w : World) (urlString : string)
      (cdr : list byte) (p : SharedPromise) :
  (exists wr, doPost_try w urlString cdr p = (Normal tt, (p ++ [wr])%list))
  \/ (exists site e, throws w site = Some e
                     /\ doPost_try w urlString cdr p = (Thrown e, p)).
Proof.
  destruct (engine_easy_init w) eqn:Hinit.
  - destruct (throws w AtDataBuilder) as [e |] eqn:Hbuilder.
    + right. exists AtDataBuilder, e. split; [exact Hbuilder |].
      rewrite doPost_try_acquired by exact Hinit.
      unfold bind, construct. now rewrite Hbuilder.
    + destruct (run_engine_normal (allocator w)
                  (engine_perform w (requested_options w urlString cdr))
                  (Cursor.make cdr) (Builder.make 4096))
        as [[[[result info] cdrc'] dataBuilder] Hrun].
      rewrite (doPost_try_transfer _ _ _ _ _ _ _ _ Hinit Hbuilder Hrun).
      apply after_perform_once_or_throw.
  - rewrite doPost_try_no_handle by exact Hinit.
    unfold bind, construct, setError.
    destruct (throws w AtHandleFailureStatus) eqn:E; eauto.
Qed.

(** ** Text *)

Lemma prefix_refl (s : string) : String.prefix s s = true.
Proof.
  induction s as [| a s IH]; simpl; [reflexivity |].
  destruct (ascii_dec a a); [exact IH | congruence].
Qed.

Lemma contains_prefix (needle hay : string) :
  String.prefix needle hay = true -> contains needle hay = true.
Proof.
  intros H. destruct hay; cbn [contains]; rewrite H; reflexivity.
Qed.

Lemma contains_append (pre s : string) : contains s (pre ++ s) = true.
Proof.
  induction pre as [| a pre IH].
  - apply contains_prefix, prefix_refl.
  - cbn [String.append contains]. rewrite IH. apply orb_true_r.
Qed.

(** ** The orchestrator: the claims *)

(** C1.  When the handle was acquired, nothing threw, the engine reported a
    successful execution, and status retrieval succeeded and gave 200, the
    promise receives exactly one write: the value made of the bytes the
    builder holds at the end of the transfer, which are the chunks of body
    the write-in callback accepted, in order of arrival. *)
Theorem doPost_success
        (w : World) (urlString : string) (cdr : list byte) (p : SharedPromise)
        (info : TransferInfo) (cdrc' : ConstDataRangeCursor)
        (dataBuilder : DataBuilder) :
  engine_easy_init w = true ->
  nothrow w ->
  transfer w urlString cdr = Normal (CURLE_OK, info, cdrc', dataBuilder) ->
  getinfo_result info = CURLE_OK ->
  response_code info = 200 ->
  doPost w urlString cdr p
  = (Normal tt, (p ++ [EmplaceValue (written dataBuilder)])%list)
  /\ written dataBuilder
     = List.concat (accepted (allocator w)
                             (engine_perform w (requested_options w urlString cdr))
                             (Cursor.make cdr) (Builder.make 4096)).
Proof.
  intros Hinit Hquiet Hrun Hinfo Hstatus. split.
  - rewrite doPost_catch.
    rewrite (doPost_try_transfer _ _ _ _ _ _ _ _ Hinit (Hquiet _) Hrun).
    unfold_post.
    rewrite Hinfo, Hstatus, (Hquiet AtResponseVector). simpl.
    now rewrite response_vector.
  - unfold transfer in Hrun. apply run_engine_written in Hrun. exact Hrun.
Qed.

Lemma doPost_success_witness :
  doPost (Sample.healthy 200) "https://example.com/upload" Sample.payload []
  = (Normal tt, [EmplaceValue Sample.body])
  /\ Sample.body = ([x68] ++ [x69])%list.
Proof.
  apply (doPost_success (Sample.healthy 200) "https://example.com/upload"
                        Sample.payload [] (mkInfo CURLE_OK 200)
                        (mkCursor Sample.payload 3) (mkBuilder Sample.body 4094)).
  - reflexivity.
  - intros site. reflexivity.
  - vm_compute. reflexivity.
  - reflexivity.
  - reflexivity.
Defined.

(** C2.  When the handle was acquired, nothing threw, the engine reported a
    successful execution, status retrieval succeeded and gave a code other
    than 200, the promise receives exactly one write: the error
    [OperationFailed] whose message ends with the decimal rendering of that
    code (and so contains it).  No value is written. *)
Theorem doPost_unexpected_status
        (w : World) (urlString : string) (cdr : list byte) (p : SharedPromise)
        (info : TransferInfo) (cdrc' : ConstDataRangeCursor)
        (dataBuilder : DataBuilder) :
  engine_easy_init w = true ->
  nothrow w ->
  transfer w urlString cdr = Normal (CURLE_OK, info, cdrc', dataBuilder) ->
  getinfo_result info = CURLE_OK ->
  response_code info <> 200 ->
  let st := mkStatus ErrorCodes.OperationFailed
                     ("Unexpected http status code from server: "
                        ++ string_of_long (response_code info)) in
  doPost w urlString cdr p = (Normal tt, (p ++ [SetError st])%list)
  /\ code st = ErrorCodes.OperationFailed
  /\ contains (string_of_long (response_code info)) (reason st) = true.
Proof.
  intros Hinit Hquiet Hrun Hinfo Hstatus st. repeat split.
  - rewrite doPost_catch.
    rewrite (doPost_try_transfer _ _ _ _ _ _ _ _ Hinit (Hquiet _) Hrun).
    unfold_post.
    rewrite Hinfo. apply Z.eqb_neq in Hstatus. rewrite Hstatus.
    rewrite (Hquiet AtStatusCodeStatus). reflexivity.
  - apply contains_append.
Qed.

Lemma doPost_unexpected_status_witness :
  doPost (Sample.healthy 404) "https://example.com/upload" Sample.payload []
  = (Normal tt,
     [SetError (mkStatus ErrorCodes.OperationFailed
                         "Unexpected http status code from server: 404")])
  /\ ErrorCodes.OperationFailed = ErrorCodes.OperationFailed
  /\ contains "404" "Unexpected http status code from server: 404" = true.
Proof.
  apply (doPost_unexpected_status (Sample.healthy 404) "https://example.com/upload"
                                  Sample.payload [] (mkInfo CURLE_OK 404)
                                  (mkCursor Sample.payload 3)
                                  (mkBuilder Sample.body 4094)).
  - reflexivity.
  - intros site. reflexivity.
  - vm_compute. reflexivity.
  - reflexivity.
  - simpl. lia.
Defined.

(** C5.  On every input [doPost] returns normally to its caller: it neither
    lets an exception through nor brings the process down.  Whenever the
    [try] block throws, it does so before the promise was touched, and the
    promise then receives the error made from that exception. *)
Theorem doPost_never_propagates
        (w : World) (urlString : string) (cdr : list byte) (p : SharedPromise) :
  (exists p', doPost w urlString cdr p = (Normal tt, p'))
  /\ (forall e p',
        doPost_try w urlString cdr p = (Thrown e, p') ->
        p' = p
        /\ doPost w urlString cdr p
           = (Normal tt, (p ++ [SetError (exceptionToStatus w e)])%list)).
Proof.
  rewrite doPost_catch.
  destruct (doPost_try_once_or_throw w urlString cdr p)
    as [[wr Hwr] | (site & e0 & _ & He0)].
  - rewrite Hwr. split; [eauto | discriminate].
  - rewrite He0. split; [eauto |].
    intros e p' [= <- <-]. split; reflexivity.
Qed.

Lemma doPost_never_propagates_witness :
  ([] : SharedPromise) = []
  /\ doPost Sample.vector_throws "https://example.com/upload" Sample.payload []
     = (Normal tt,
        [SetError (mkStatus ErrorCodes.UnknownError "std::bad_alloc")]).
Proof.
  apply (proj2 (doPost_never_propagates Sample.vector_throws
                  "https://example.com/upload" Sample.payload [])
               BadAlloc []).
  vm_compute. reflexivity.
Defined.

(** C9.  On every path through [doPost] the promise receives exactly one
    write, an error or a value: what it holds afterwards is what it held
    before followed by that single write. *)
Theorem doPost_writes_once
        (w : World) (urlString : string) (cdr : list byte) (p : SharedPromise) :
  exists wr, doPost w urlString cdr p = (Normal tt, (p ++ [wr])%list).
Proof.
  rewrite doPost_catch.
  destruct (doPost_try_once_or_throw w urlString cdr p)
    as [[wr Hwr] | (site & e & _ & He)].
  - rewrite Hwr. eauto.
  - rewrite He. eauto.
Qed.

(** C10.  The return codes of [curl_easy_setopt] have no influence on what
    [doPost] does.  Whenever the promise receives an error, the handle could
    not be acquired, or the [try] block threw and the error is made from that
    exception, or the transfer ran and the engine reported a failure, status
    retrieval failed, or the status was not 200. *)
Theorem doPost_failure_sources
        (w : World) (urlString : string) (cdr : list byte) (p : SharedPromise) :
  (forall rc, doPost (with_setopt w rc) urlString cdr p = doPost w urlString cdr p)
  /\ (forall s,
        doPost w urlString cdr p = (Normal tt, (p ++ [SetError s])%list) ->
        engine_easy_init w = false
        \/ (exists site e,
               throws w site = Some e
               /\ doPost_try w urlString cdr p = (Thrown e, p)
               /\ s = exceptionToStatus w e)
        \/ (exists result info cdrc' dataBuilder,
               transfer w urlString cdr = Normal (result, info, cdrc', dataBuilder)
               /\ (result <> CURLE_OK
                   \/ getinfo_result info <> CURLE_OK
                   \/ response_code info <> 200))).
Proof.
  split; [reflexivity |].
  intros s Hpost. rewrite doPost_catch in Hpost.
  destruct (engine_easy_init w) eqn:Hinit; [| now left]. right.
  destruct (doPost_try_once_or_throw w urlString cdr p)
    as [[wr Hwr] | (site & e & Hsite & He)].
  - right.
    destruct (throws w AtDataBuilder) as [e |] eqn:Hbuilder.
    { rewrite doPost_try_acquired in Hwr by exact Hinit.
      unfold bind, construct in Hwr. rewrite Hbuilder in Hwr. discriminate. }
    destruct (run_engine_normal (allocator w)
                (engine_perform w (requested_options w urlString cdr))
                (Cursor.make cdr) (Builder.make 4096))
      as [[[[result info] cdrc'] dataBuilder] Hrun].
    exists result, info, cdrc', dataBuilder. split; [exact Hrun |].
    destruct (Z.eq_dec result CURLE_OK) as [Hres |]; [| now left].
    destruct (Z.eq_dec (getinfo_result info) CURLE_OK) as [Hinfo |];
      [| now right; left].
    destruct (Z.eq_dec (response_code info) 200) as [Hstatus |];
      [| now right; right].
    exfalso.
    rewrite (doPost_try_transfer _ _ _ _ _ _ _ _ Hinit Hbuilder Hrun) in Hpost, Hwr.
    unfold_post in Hpost Hwr.
    rewrite Hres, Hinfo, Hstatus in Hpost, Hwr. simpl in Hpost, Hwr.
    destruct (throws w AtResponseVector); [discriminate Hwr |].
    injection Hpost as Hpost. apply app_inv_head in Hpost. discriminate.
  - left. rewrite He in Hpost.
    injection Hpost as Hpost. apply app_inv_head in Hpost.
    injection Hpost as <-. eauto 6.
Qed.

Lemma doPost_failure_sources_witness :
  engine_easy_init (Sample.healthy 404) = false
  \/ (exists site e,
         throws (Sample.healthy 404) site = Some e
         /\ doPost_try (Sample.healthy 404) "https://example.com/upload"
                       Sample.payload [] = (Thrown e, [])
         /\ mkStatus ErrorCodes.OperationFailed
                     "Unexpected http status code from server: 404"
            = exceptionToStatus (Sample.healthy 404) e)
  \/ (exists result info cdrc' dataBuilder,
         transfer (Sample.healthy 404) "https://example.com/upload" Sample.payload
         = Normal (result, info, cdrc', dataBuilder)
         /\ (result <> CURLE_OK
             \/ getinfo_result info <> CURLE_OK
             \/ response_code info <> 200)).
Proof.
  apply (proj2 (doPost_failure_sources (Sample.healthy 404)
                  "https://example.com/upload" Sample.payload [])).
  vm_compute. reflexivity.
Defined.

(** ** Protocol policy *)

Lemma requested_url (w : World) (urlString : string) (cdr : list byte) :
  target_url (requested_options w urlString cdr) = Some (c_str urlString).
Proof.
  unfold requested_options.
  destruct (467456 <? LIBCURL_VERSION_NUM w); reflexivity.
Qed.

Lemma requested_protocols (w : World) (urlString : string) (cdr : list byte) :
  allowed_protocols (requested_options w urlString cdr)
  = Some (if getTestCommandsEnabled w
          then Z.lor CURLPROTO_HTTPS CURLPROTO_HTTP
          else CURLPROTO_HTTPS).
Proof.
  unfold requested_options.
  destruct (467456 <? LIBCURL_VERSION_NUM w); reflexivity.
Qed.

Lemma gated_enforces (scheme : SchemeReader) (w : World)
      (inner : CURL -> EngineRun) :
  enforces_protocols scheme (with_perform w (gated scheme inner)).
Proof.
  intros h url mask bit Hurl Hmask Hscheme Hland. simpl. unfold gated.
  rewrite Hurl, Hmask, Hscheme, Hland. simpl. eauto.
Qed.

Lemma production_enforces : enforces_protocols Sample.scheme_of Sample.production.
Proof.
  apply (gated_enforces Sample.scheme_of Sample.production (Sample.server 200)).
Qed.

(** [doPost] consults the engine at one handle only: two engines that do the
    same with that handle give the same [doPost]. *)
Lemma doPost_perform_at (w : World) (urlString : string) (cdr : list byte)
      (perform1 perform2 : CURL -> EngineRun) (p : SharedPromise) :
  perform1 (requested_options w urlString cdr)
  = perform2 (requested_options w urlString cdr) ->
  doPost (with_perform w perform1) urlString cdr p
  = doPost (with_perform w perform2) urlString cdr p.
Proof.
  intros Hsame. rewrite !doPost_catch.
  destruct (engine_easy_init w) eqn:Hinit.
  - rewrite !doPost_try_acquired by exact Hinit.
    unfold bind, construct, curl_easy_perform.
    change (requested_options (with_perform w perform1) urlString cdr)
      with (requested_options w urlString cdr).
    change (requested_options (with_perform w perform2) urlString cdr)
      with (requested_options w urlString cdr).
    cbn [engine_perform with_perform]. rewrite Hsame. reflexivity.
  - rewrite !doPost_try_no_handle by exact Hinit. reflexivity.
Qed.

Lemma CurlOption_eq_dec (a b : CurlOption) : {a = b} + {a <> b}.
Proof.
  decide equality;
    try apply Z.eq_dec; try apply string_dec;
    try (decide equality; fail);
    decide equality; apply (list_eq_dec string_dec).
Qed.

(** [handed] singles out one handle: two handles that both pass for the one
    [doPost] gives to the engine are the same. *)
Lemma handed_functional (w : World) (urlString : string) (cdr : list byte)
      (h1 h2 : CURL) :
  handed w urlString cdr h1 -> handed w urlString cdr h2 -> h1 = h2.
Proof.
  intros H1 H2.
  set (test := fun h => if list_eq_dec CurlOption_eq_dec h h1 then true else false).
  assert (Hself : test h1 = true).
  { unfold test. destruct (list_eq_dec CurlOption_eq_dec h1 h1); congruence. }
  apply (H1 test) in Hself. apply (H2 test) in Hself.
  unfold test in Hself.
  destruct (list_eq_dec CurlOption_eq_dec h2 h1); [congruence | discriminate].
Qed.

(** The handle [doPost] gives to the engine is [requested_options]. *)
Lemma doPost_hands_requested (w : World) (urlString : string) (cdr : list byte) :
  engine_easy_init w = true ->
  nothrow w ->
  handed w urlString cdr (requested_options w urlString cdr).
Proof.
  intros Hinit Hquiet test.
  set (w' := with_perform w (probe test)).
  assert (Hrun : transfer w' urlString cdr
                 = Normal (if test (requested_options w urlString cdr)
                           then CURLE_OK else 42,
                           mkInfo CURLE_OK 200,
                           Cursor.make cdr, Builder.make 4096)).
  { unfold transfer, w'. cbn [engine_perform with_perform]. unfold probe.
    change (requested_options (with_perform w _) urlString cdr)
      with (requested_options w urlString cdr).
    destruct (test (requested_options w urlString cdr)); reflexivity. }
  rewrite doPost_catch.
  rewrite (doPost_try_transfer w' _ _ _ _ _ _ _ Hinit (Hquiet _) Hrun).
  unfold_post.
  change (throws w') with (throws w). rewrite !Hquiet.
  destruct (test (requested_options w urlString cdr)); simpl;
    split; intros H; try reflexivity; discriminate.
Qed.

(** C6.  With a handle acquired and nothing throwing, the handle [doPost]
    gives to the engine carries one protocol mask, [CURLPROTO_HTTPS] alone
    when test commands are disabled and [CURLPROTO_HTTPS | CURLPROTO_HTTP]
    when they are enabled, together with the URL as a C string.  HTTPS is in
    the mask either way, HTTP exactly when test commands are enabled.  With
    test commands disabled and an engine that enforces the mask, a post to a
    URL the engine reads as http resolves the promise to an error; when the
    handle was acquired and nothing threw, that error is the transport
    failure carrying the engine's text for [CURLE_UNSUPPORTED_PROTOCOL].
    Behind an engine that applies the mask, a post to an https URL, or to an
    http URL with test commands enabled, goes ahead as if the mask were not
    there. *)
Theorem doPost_protocol_restriction
        (w : World) (scheme : SchemeReader) (urlString : string)
        (cdr : list byte) :
  let mask := if getTestCommandsEnabled w
              then Z.lor CURLPROTO_HTTPS CURLPROTO_HTTP
              else CURLPROTO_HTTPS in
  (engine_easy_init w = true ->
   nothrow w ->
   exists h,
     handed w urlString cdr h
     /\ target_url h = Some (c_str urlString)
     /\ allowed_protocols h = Some mask
     /\ (forall m, In (CURLOPT_PROTOCOLS m) h <-> m = mask))
  /\ Z.land CURLPROTO_HTTPS mask = CURLPROTO_HTTPS
  /\ Z.land CURLPROTO_HTTP mask
     = (if getTestCommandsEnabled w then CURLPROTO_HTTP else 0)
  /\ (getTestCommandsEnabled w = false ->
      enforces_protocols scheme w ->
      scheme (c_str urlString) = Some CURLPROTO_HTTP ->
      forall p, exists s,
        doPost w urlString cdr p = (Normal tt, (p ++ [SetError s])%list)
        /\ (engine_easy_init w = true ->
            nothrow w ->
            s = mkStatus ErrorCodes.OperationFailed
                         ("Bad HTTP response from API server: "
                            ++ engine_strerror w CURLE_UNSUPPORTED_PROTOCOL)))
  /\ (forall inner bit p,
        scheme (c_str urlString) = Some bit ->
        bit = CURLPROTO_HTTPS
        \/ (bit = CURLPROTO_HTTP /\ getTestCommandsEnabled w = true) ->
        doPost (with_perform w (gated scheme inner)) urlString cdr p
        = doPost (with_perform w inner) urlString cdr p).
Proof.
  intros mask. split; [| split; [| split; [| split]]].
  - intros Hinit Hquiet. exists (requested_options w urlString cdr).
    split; [now apply doPost_hands_requested |].
    split; [apply requested_url |].
    split; [apply requested_protocols |].
    intros m. subst mask. unfold requested_options.
    destruct (467456 <? LIBCURL_VERSION_NUM w), (getTestCommandsEnabled w);
      simpl; split; intros H; read_handle H.
  - subst mask; destruct (getTestCommandsEnabled w); reflexivity.
  - subst mask; destruct (getTestCommandsEnabled w); reflexivity.
  - intros Htest Hengine Hhttp p.
    destruct (Hengine (requested_options w urlString cdr) (c_str urlString)
                      CURLPROTO_HTTPS CURLPROTO_HTTP)
      as [info Hperform].
    { apply requested_url. }
    { rewrite requested_protocols, Htest. reflexivity. }
    { exact Hhttp. }
    { reflexivity. }
    assert (Hrun : transfer w urlString cdr
                   = Normal (CURLE_UNSUPPORTED_PROTOCOL, info,
                             Cursor.make cdr, Builder.make 4096))
      by (unfold transfer; rewrite Hperform; reflexivity).
    rewrite doPost_catch.
    destruct (engine_easy_init w) eqn:Hinit.
    + destruct (throws w AtDataBuilder) as [e |] eqn:Hbuilder.
      * rewrite doPost_try_acquired by exact Hinit.
        unfold bind, construct. rewrite Hbuilder.
        eexists. split; [reflexivity |].
        intros _ Hquiet. rewrite Hquiet in Hbuilder. discriminate.
      * rewrite (doPost_try_transfer _ _ _ _ _ _ _ _ Hinit Hbuilder Hrun).
        unfold_post. simpl.
        destruct (throws w AtTransportFailureStatus) as [e |] eqn:Hstatus.
        -- eexists. split; [reflexivity |].
           intros _ Hquiet. rewrite Hquiet in Hstatus. discriminate.
        -- eexists. split; reflexivity.
    + rewrite doPost_try_no_handle by exact Hinit.
      unfold bind, construct, setError.
      destruct (throws w AtHandleFailureStatus);
        (eexists; split; [reflexivity | discriminate]).
  - intros inner bit p Hscheme Hallowed.
    apply doPost_perform_at. unfold gated.
    rewrite requested_url, requested_protocols, Hscheme.
    destruct Hallowed as [-> | [-> ->]]; [| reflexivity].
    destruct (getTestCommandsEnabled w); reflexivity.
Qed.

Lemma doPost_protocol_restriction_witness :
  exists s,
    doPost Sample.production "HTTP://example.com/upload" Sample.payload []
    = (Normal tt, [SetError s])
    /\ (engine_easy_init Sample.production = true ->
        nothrow Sample.production ->
        s = mkStatus ErrorCodes.OperationFailed
                     "Bad HTTP response from API server: Unsupported protocol").
Proof.
  destruct (doPost_protocol_restriction Sample.production Sample.scheme_of
                                        "HTTP://example.com/upload" Sample.payload)
    as (_ & _ & _ & Hrefused & _).
  apply Hrefused.
  - reflexivity.
  - exact production_enforces.
  - reflexivity.
Defined.

(** * Further properties of the translation unit *)

(** ** The error paths of [doPost] *)

(** X1.  When [curl_easy_init] returns null and building the status does not
    throw, the promise receives the single error [InternalError] "Curl
    initialization failed", whatever the engine would have done with the
    transfer. *)
Theorem doPost_no_handle
        (w : World) (urlString : string) (cdr : list byte) (p : SharedPromise) :
  engine_easy_init w = false ->
  throws w AtHandleFailureStatus = None ->
  doPost w urlString cdr p
  = (Normal tt,
     (p ++ [SetError (mkStatus ErrorCodes.InternalError
                               "Curl initialization failed")])%list).
Proof.
  intros Hinit Hquiet.
  rewrite doPost_catch, doPost_try_no_handle by exact Hinit.
  unfold bind, construct, setError. now rewrite Hquiet.
Qed.

Lemma doPost_no_handle_witness :
  doPost Scenario.no_handle "https://example.com/upload" Sample.payload []
  = (Normal tt,
     [SetError (mkStatus ErrorCodes.InternalError "Curl initialization failed")]).
Proof.
  apply (doPost_no_handle Scenario.no_handle "https://example.com/upload"
                          Sample.payload []); reflexivity.
Defined.

(** X2.  When [curl_easy_perform] returns anything but [CURLE_OK], the
    promise receives [OperationFailed] with "Bad HTTP response from API
    server: " followed by the engine's text for that code.  Neither the
    response code nor what the builder holds is looked at: a transfer that
    failed after a complete 200 answer is a failure all the same. *)
Theorem doPost_transport_failure
        (w : World) (urlString : string) (cdr : list byte) (p : SharedPromise)
        (result : CURLcode) (info : TransferInfo)
        (cdrc' : ConstDataRangeCursor) (dataBuilder : DataBuilder) :
  engine_easy_init w = true ->
  nothrow w ->
  transfer w urlString cdr = Normal (result, info, cdrc', dataBuilder) ->
  result <> CURLE_OK ->
  doPost w urlString cdr p
  = (Normal tt,
     (p ++ [SetError (mkStatus ErrorCodes.OperationFailed
                               ("Bad HTTP response from API server: "
                                  ++ engine_strerror w result))])%list).
Proof.
  intros Hinit Hquiet Hrun Hres.
  rewrite doPost_catch.
  rewrite (doPost_try_transfer _ _ _ _ _ _ _ _ Hinit (Hquiet _) Hrun).
  unfold_post. apply Z.eqb_neq in Hres. rewrite Hres. simpl.
  now rewrite (Hquiet AtTransportFailureStatus).
Qed.

Lemma doPost_transport_failure_witness :
  doPost Scenario.unreachable "https://example.com/upload" Sample.payload []
  = (Normal tt,
     [SetError (mkStatus ErrorCodes.OperationFailed
                         "Bad HTTP response from API server: Unknown error")]).
Proof.
  apply (doPost_transport_failure Scenario.unreachable "https://example.com/upload"
                                  Sample.payload [] 7 (mkInfo CURLE_OK 200)
                                  (Cursor.make Sample.payload) (Builder.make 4096)).
  - reflexivity.
  - intros site. reflexivity.
  - reflexivity.
  - discriminate.
Defined.

(** X3.  When the transfer succeeded but [curl_easy_getinfo] returns anything
    but [CURLE_OK], the promise receives [OperationFailed] with "Unexpected
    error retrieving response: " followed by the engine's text for that code;
    the status code variable is not read, so this holds even when the engine
    would have reported 200. *)
Theorem doPost_getinfo_failure
        (w : World) (urlString : string) (cdr : list byte) (p : SharedPromise)
        (info : TransferInfo)
        (cdrc' : ConstDataRangeCursor) (dataBuilder : DataBuilder) :
  engine_easy_init w = true ->
  nothrow w ->
  transfer w urlString cdr = Normal (CURLE_OK, info, cdrc', dataBuilder) ->
  getinfo_result info <> CURLE_OK ->
  doPost w urlString cdr p
  = (Normal tt,
     (p ++ [SetError (mkStatus ErrorCodes.OperationFailed
                               ("Unexpected error retrieving response: "
                                  ++ engine_strerror w (getinfo_result info)))])%list).
Proof.
  intros Hinit Hquiet Hrun Hinfo.
  rewrite doPost_catch.
  rewrite (doPost_try_transfer _ _ _ _ _ _ _ _ Hinit (Hquiet _) Hrun).
  unfold_post. apply Z.eqb_neq in Hinfo. rewrite Hinfo. simpl.
  now rewrite (Hquiet AtGetinfoFailureStatus).
Qed.

Lemma doPost_getinfo_failure_witness :
  doPost Scenario.opaque_status "https://example.com/upload" Sample.payload []
  = (Normal tt,
     [SetError (mkStatus ErrorCodes.OperationFailed
                         "Unexpected error retrieving response: Unknown error")]).
Proof.
  apply (doPost_getinfo_failure Scenario.opaque_status "https://example.com/upload"
                                Sample.payload [] (mkInfo 48 200)
                                (Cursor.make Sample.payload) (Builder.make 4096)).
  - reflexivity.
  - intros site. reflexivity.
  - reflexivity.
  - discriminate.
Defined.

(** X4.  As long as nothing throws, the error code tells the cause apart:
    an error written by [doPost] is [InternalError] "Curl initialization
    failed" exactly when no handle could be acquired, and carries
    [OperationFailed] whenever a handle was acquired. *)
Theorem doPost_error_kinds
        (w : World) (urlString : string) (cdr : list byte) (p : SharedPromise)
        (s : Status) :
  nothrow w ->
  doPost w urlString cdr p = (Normal tt, (p ++ [SetError s])%list) ->
  (engine_easy_init w = false
   /\ s = mkStatus ErrorCodes.InternalError "Curl initialization failed")
  \/ (engine_easy_init w = true /\ code s = ErrorCodes.OperationFailed).
Proof.
  intros Hquiet Hpost. rewrite doPost_catch in Hpost.
  destruct (engine_easy_init w) eqn:Hinit.
  - right. split; [reflexivity |].
    destruct (run_engine_normal (allocator w)
                (engine_perform w (requested_options w urlString cdr))
                (Cursor.make cdr) (Builder.make 4096))
      as [[[[result info] cdrc'] dataBuilder] Hrun].
    rewrite (doPost_try_transfer _ _ _ _ _ _ _ _ Hinit (Hquiet _) Hrun) in Hpost.
    unfold_post in Hpost. rewrite !Hquiet in Hpost.
    destruct (negb (result =? CURLE_OK));
      [| destruct (negb (getinfo_result info =? CURLE_OK));
         [| destruct (negb (response_code info =? 200))]];
      injection Hpost as Hpost; apply app_inv_head in Hpost;
      try discriminate; injection Hpost as <-; reflexivity.
  - left. split; [reflexivity |].
    rewrite doPost_try_no_handle in Hpost by exact Hinit.
    unfold bind, construct, setError in Hpost. rewrite Hquiet in Hpost.
    injection Hpost as Hpost. apply app_inv_head in Hpost.
    now injection Hpost as <-.
Qed.

Lemma doPost_error_kinds_witness :
  (engine_easy_init (Sample.healthy 404) = false
   /\ mkStatus ErrorCodes.OperationFailed
               "Unexpected http status code from server: 404"
      = mkStatus ErrorCodes.InternalError "Curl initialization failed")
  \/ (engine_easy_init (Sample.healthy 404) = true
      /\ code (mkStatus ErrorCodes.OperationFailed
                        "Unexpected http status code from server: 404")
         = ErrorCodes.OperationFailed).
Proof.
  apply (doPost_error_kinds (Sample.healthy 404) "https://example.com/upload"
                            Sample.payload []).
  - intros site. reflexivity.
  - vm_compute. reflexivity.
Defined.

(** ** The request body as the engine receives it *)

Lemma run_engine_pulled (alloc : Builder.Allocator) (r : EngineRun) :
  forall cdrc dataBuilder result info cdrc' dataBuilder',
    run_engine alloc r cdrc dataBuilder
    = Normal (result, info, cdrc', dataBuilder') ->
    (pulled alloc r cdrc dataBuilder ++ Cursor.data cdrc')%list = Cursor.data cdrc
    /\ cdrc_bytes cdrc' = cdrc_bytes cdrc
    /\ (cdrc_begin cdrc <= cdrc_begin cdrc')%nat.
Proof.
  induction r as [result0 info0 | buffer size nitems k IH | ptr size nmemb k IH];
    intros cdrc dataBuilder result info cdrc' dataBuilder'; simpl.
  - intros [= _ _ <- _]. auto.
  - rewrite ReadMemoryCallback_eq. cbv zeta.
    set (n := Z.min (size_mul size nitems) (Cursor.length cdrc)).
    intros Hrun. apply IH in Hrun. destruct Hrun as (Hdata & Hbytes & Hbegin).
    simpl in Hbytes, Hbegin.
    pose proof (size_mul_range size nitems) as Hreq.
    pose proof (cursor_length_nonneg cdrc) as Hrem.
    pose proof (cursor_length_data cdrc) as Hlen.
    split; [| split; [exact Hbytes | lia]].
    rewrite memcpy_prefix by (subst n; lia).
    rewrite <- app_assoc, Hdata.
    assert (Hrest : Cursor.data (mkCursor (cdrc_bytes cdrc)
                                          (cdrc_begin cdrc + Z.to_nat n))
                    = skipn (Z.to_nat n) (Cursor.data cdrc)).
    { unfold Cursor.data. simpl. rewrite skipn_skipn. f_equal. lia. }
    rewrite Hrest. apply firstn_skipn.
  - destruct (WriteMemoryCallback alloc ptr size nmemb dataBuilder) as [n db'].
    apply IH.
Qed.

(** X5.  Over a whole transfer the read-out callback hands the engine a
    prefix of the payload, in order and without repeating or skipping a byte:
    what the engine has pulled in, followed by what the cursor still holds,
    is the payload.  The payload itself is left as it was. *)
Theorem transfer_streams_payload
        (w : World) (urlString : string) (cdr : list byte)
        (result : CURLcode) (info : TransferInfo)
        (cdrc' : ConstDataRangeCursor) (dataBuilder : DataBuilder) :
  transfer w urlString cdr = Normal (result, info, cdrc', dataBuilder) ->
  let sent := pulled (allocator w)
                     (engine_perform w (requested_options w urlString cdr))
                     (Cursor.make cdr) (Builder.make 4096) in
  (sent ++ Cursor.data cdrc')%list = cdr
  /\ cdrc_bytes cdrc' = cdr
  /\ sent = firstn (cdrc_begin cdrc') cdr
  /\ (List.length sent <= List.length cdr)%nat.
Proof.
  intros Hrun sent. unfold transfer in Hrun.
  apply run_engine_pulled in Hrun. destruct Hrun as (Hdata & Hbytes & _).
  fold sent in Hdata. simpl in Hbytes.
  change (Cursor.data (Cursor.make cdr)) with cdr in Hdata.
  assert (Hsent : sent = firstn (cdrc_begin cdrc') cdr).
  { apply (app_inv_tail (Cursor.data cdrc')).
    rewrite Hdata. unfold Cursor.data. rewrite Hbytes.
    symmetry. apply firstn_skipn. }
  repeat split; auto.
  rewrite Hsent, length_firstn. lia.
Qed.

Lemma transfer_streams_payload_witness :
  let sent := pulled (allocator (Sample.healthy 200))
                     (engine_perform (Sample.healthy 200)
                        (requested_options (Sample.healthy 200)
                                           "https://example.com/upload"
                                           Sample.payload))
                     (Cursor.make Sample.payload) (Builder.make 4096) in
  (sent ++ Cursor.data (mkCursor Sample.payload 3))%list = Sample.payload
  /\ cdrc_bytes (mkCursor Sample.payload 3) = Sample.payload
  /\ sent = firstn (cdrc_begin (mkCursor Sample.payload 3)) Sample.payload
  /\ (List.length sent <= List.length Sample.payload)%nat.
Proof.
  apply (transfer_streams_payload (Sample.healthy 200) "https://example.com/upload"
                                  Sample.payload CURLE_OK (mkInfo CURLE_OK 200)
                                  (mkCursor Sample.payload 3)
                                  (mkBuilder Sample.body 4094)).
  vm_compute. reflexivity.
Defined.

(** X6.  End of body is final: once the read-out callback has answered 0 to
    a request for at least one byte, the cursor is exhausted, and every later
    call, whatever it asks for, answers 0 again and touches neither the
    engine's buffer nor the cursor. *)
Theorem ReadMemoryCallback_end_is_final
        (buffer buffer' : list byte) (size nitems : Z)
        (cdrc cdrc' : ConstDataRangeCursor) :
  ReadMemoryCallback buffer size nitems cdrc = Normal (buffer', cdrc', 0) ->
  size_mul size nitems <> 0 ->
  Cursor.length cdrc' = 0
  /\ forall buffer2 size2 nitems2,
       ReadMemoryCallback buffer2 size2 nitems2 cdrc' = Normal (buffer2, cdrc', 0).
Proof.
  intros Hcall Hreq.
  pose proof (size_mul_range size nitems) as Hrange.
  pose proof (cursor_length_nonneg cdrc) as Hrem.
  unfold ReadMemoryCallback in Hcall.
  destruct (Z.ltb_spec 0 (Cursor.length cdrc)) as [Hpos | Hzero].
  - cbv zeta in Hcall. rewrite advance_within in Hcall by (apply Z.le_min_r).
    simpl in Hcall. injection Hcall as _ _ Hn. lia.
  - injection Hcall as _ <-.
    assert (Hlen : Cursor.length cdrc = 0) by lia.
    split; [exact Hlen |].
    intros buffer2 size2 nitems2. unfold ReadMemoryCallback.
    rewrite Hlen. reflexivity.
Qed.

Lemma ReadMemoryCallback_end_is_final_witness :
  Cursor.length (mkCursor Sample.payload 3) = 0
  /\ forall buffer2 size2 nitems2,
       ReadMemoryCallback buffer2 size2 nitems2 (mkCursor Sample.payload 3)
       = Normal (buffer2, mkCursor Sample.payload 3, 0).
Proof.
  apply (ReadMemoryCallback_end_is_final [x00; x00] [x00; x00] 1 2
                                         (mkCursor Sample.payload 3)
                                         (mkCursor Sample.payload 3)).
  - reflexivity.
  - discriminate.
Defined.

(** ** The response body and failed appends *)

(** A refused append offered at least one byte, so the 0 handed back is a
    short count. *)
Lemma refused_count_differs
      (alloc : Builder.Allocator) (ptr : list byte) (size nmemb : Z)
      (data : DataBuilder) :
  isOK (fst (Builder.writeAndAdvance alloc data
               (ConstDataRange ptr (size_mul size nmemb)))) = false ->
  0 <> size_mul size nmemb.
Proof.
  intros Hst. apply writeAndAdvance_failure in Hst.
  unfold ConstDataRange in Hst. rewrite length_firstn in Hst. lia.
Qed.

(** With an engine that keeps its side of the write contract, a run either
    saw every offered chunk accepted or ended in [CURLE_WRITE_ERROR]. *)
Lemma run_engine_short_write (alloc : Builder.Allocator) (r : EngineRun) :
  aborts_on_short_write r ->
  forall cdrc dataBuilder result info cdrc' dataBuilder',
    run_engine alloc r cdrc dataBuilder
    = Normal (result, info, cdrc', dataBuilder') ->
    accepted alloc r cdrc dataBuilder = offered alloc r cdrc dataBuilder
    \/ result = CURLE_WRITE_ERROR.
Proof.
  induction 1 as [result0 info0 | buffer size nitems k _ IH
                  | ptr size nmemb k Hshort _ IH];
    intros cdrc dataBuilder result info cdrc' dataBuilder'; simpl.
  - auto.
  - rewrite ReadMemoryCallback_eq. apply IH.
  - rewrite WriteMemoryCallback_eq. cbv zeta.
    destruct (isOK (fst (Builder.writeAndAdvance alloc dataBuilder _))) eqn:Hst.
    + intros Hrun. apply IH in Hrun. destruct Hrun as [-> | ->]; auto.
    + destruct (Hshort 0 (refused_count_differs _ _ _ _ _ Hst)) as [info0 ->].
      simpl. intros [= <- _ _ _]. auto.
Qed.

(** X7.  With an engine that ends the transfer with [CURLE_WRITE_ERROR] on a
    short count, a transfer during which the builder refused a chunk never
    yields a value: the promise receives [OperationFailed] with the engine's
    text for the write error, so a truncated body is not passed off as a
    success. *)
Theorem doPost_refused_append_fails
        (w : World) (urlString : string) (cdr : list byte) (p : SharedPromise) :
  let run := engine_perform w (requested_options w urlString cdr) in
  engine_easy_init w = true ->
  nothrow w ->
  aborts_on_short_write run ->
  accepted (allocator w) run (Cursor.make cdr) (Builder.make 4096)
  <> offered (allocator w) run (Cursor.make cdr) (Builder.make 4096) ->
  doPost w urlString cdr p
  = (Normal tt,
     (p ++ [SetError (mkStatus ErrorCodes.OperationFailed
                               ("Bad HTTP response from API server: "
                                  ++ engine_strerror w CURLE_WRITE_ERROR))])%list).
Proof.
  intros run Hinit Hquiet Hcontract Hrefused.
  destruct (run_engine_normal (allocator w) run (Cursor.make cdr) (Builder.make 4096))
    as [[[[result info] cdrc'] dataBuilder] Hrun].
  destruct (run_engine_short_write _ _ Hcontract _ _ _ _ _ _ Hrun) as [Hall | ->];
    [contradiction |].
  rewrite doPost_catch.
  rewrite (doPost_try_transfer _ _ _ _ _ _ _ _ Hinit (Hquiet _) Hrun).
  unfold_post. simpl. now rewrite (Hquiet AtTransportFailureStatus).
Qed.

Lemma flood_aborts_on_short_write (h : CURL) :
  aborts_on_short_write (Scenario.flood h).
Proof.
  unfold Scenario.flood. apply short_write_write.
  - intros n Hn. change (size_mul 1 5000) with 5000 in Hn.
    apply Z.eqb_neq in Hn. rewrite Hn. eauto.
  - apply short_write_finish.
Qed.

Lemma doPost_refused_append_fails_witness :
  doPost Scenario.flooded "https://example.com/upload" Sample.payload []
  = (Normal tt,
     [SetError (mkStatus ErrorCodes.OperationFailed
                         "Bad HTTP response from API server: Failed writing received data to disk/application")]).
Proof.
  apply (doPost_refused_append_fails Scenario.flooded "https://example.com/upload"
                                     Sample.payload []).
  - reflexivity.
  - intros site. reflexivity.
  - apply flood_aborts_on_short_write.
  - vm_compute. discriminate.
Defined.

(** X8.  With such an engine, a value written by [doPost] is the whole body:
    when the transfer ended with [CURLE_OK] and status 200, the value is the
    concatenation of every chunk the engine offered, none left out. *)
Theorem doPost_value_is_complete
        (w : World) (urlString : string) (cdr : list byte) (p : SharedPromise)
        (info : TransferInfo) (cdrc' : ConstDataRangeCursor)
        (dataBuilder : DataBuilder) :
  let run := engine_perform w (requested_options w urlString cdr) in
  engine_easy_init w = true ->
  nothrow w ->
  aborts_on_short_write run ->
  transfer w urlString cdr = Normal (CURLE_OK, info, cdrc', dataBuilder) ->
  getinfo_result info = CURLE_OK ->
  response_code info = 200 ->
  doPost w urlString cdr p
  = (Normal tt,
     (p ++ [EmplaceValue
              (List.concat (offered (allocator w) run
                                    (Cursor.make cdr) (Builder.make 4096)))])%list).
Proof.
  intros run Hinit Hquiet Hcontract Hrun Hinfo Hstatus.
  pose proof Hrun as Hsame. unfold transfer in Hsame. fold run in Hsame.
  apply (run_engine_short_write _ _ Hcontract) in Hsame.
  destruct Hsame as [Hsame | Hbad]; [| discriminate Hbad].
  pose proof Hrun as Hwritten. unfold transfer in Hwritten. fold run in Hwritten.
  apply run_engine_written in Hwritten. simpl in Hwritten.
  rewrite Hsame in Hwritten.
  rewrite doPost_catch.
  rewrite (doPost_try_transfer _ _ _ _ _ _ _ _ Hinit (Hquiet _) Hrun).
  unfold_post. rewrite Hinfo, Hstatus, (Hquiet AtResponseVector). simpl.
  now rewrite response_vector, Hwritten.
Qed.

Lemma server_aborts_on_short_write (status : Z) (h : CURL) :
  aborts_on_short_write (Sample.server status h).
Proof.
  unfold Sample.server. apply short_write_read. intros _ _.
  apply short_write_write.
  - intros n Hn. change (size_mul 1 1) with 1 in Hn.
    apply Z.eqb_neq in Hn. rewrite Hn. eauto.
  - change (size_mul 1 1) with 1. simpl. apply short_write_write.
    + intros n Hn. change (size_mul 1 1) with 1 in Hn.
      apply Z.eqb_neq in Hn. rewrite Hn. eauto.
    + change (size_mul 1 1) with 1. simpl. apply short_write_finish.
Qed.

Lemma doPost_value_is_complete_witness :
  doPost (Sample.healthy 200) "https://example.com/upload" Sample.payload []
  = (Normal tt, [EmplaceValue (List.concat [[x68]; [x69]])]).
Proof.
  apply (doPost_value_is_complete (Sample.healthy 200) "https://example.com/upload"
                                  Sample.payload [] (mkInfo CURLE_OK 200)
                                  (mkCursor Sample.payload 3)
                                  (mkBuilder Sample.body 4094)).
  - reflexivity.
  - intros site. reflexivity.
  - apply server_aborts_on_short_write.
  - vm_compute. reflexivity.
  - reflexivity.
  - reflexivity.
Defined.

(** ** What [doPost] asks of the engine *)

Lemma request_headers_spec (w : World) :
  let content := "Content-Type: application/octet-stream"%string in
  let accept := "Accept: application/octet-stream"%string in
  let expect := "Expect:"%string in
  (request_headers w = Some [content; accept; expect]
   <-> engine_slist_append w None content = true
       /\ engine_slist_append w (Some [content]) accept = true
       /\ engine_slist_append w (Some [content; accept]) expect = true)
  /\ (request_headers w = Some [content; accept; expect]
      \/ request_headers w = Some [accept; expect]
      \/ request_headers w = Some [expect]
      \/ request_headers w = None).
Proof.
  intros content accept expect.
  split.
  - unfold request_headers, curl_slist_append. fold content accept expect.
    destruct (engine_slist_append w None content) eqn:H1; simpl.
    + destruct (engine_slist_append w (Some [content]) accept) eqn:H2; simpl.
      * destruct (engine_slist_append w (Some [content; accept]) expect) eqn:H3;
          simpl; split; intros H; try discriminate; auto.
        destruct H as (_ & _ & H). discriminate.
      * split; [| intros (_ & H & _); discriminate].
        destruct (engine_slist_append w None expect); simpl; discriminate.
    + split; [| intros (H & _); discriminate].
      destruct (engine_slist_append w None accept); simpl.
      * destruct (engine_slist_append w (Some [accept]) expect); simpl; discriminate.
      * destruct (engine_slist_append w None expect); simpl; discriminate.
  - unfold request_headers, curl_slist_append. fold content accept expect.
    destruct (engine_slist_append w None content); simpl.
    + destruct (engine_slist_append w (Some [content]) accept); simpl.
      * destruct (engine_slist_append w (Some [content; accept]) expect);
          simpl; auto.
      * destruct (engine_slist_append w None expect); simpl; auto.
    + destruct (engine_slist_append w None accept); simpl.
      * destruct (engine_slist_append w (Some [accept]) expect); simpl; auto.
      * destruct (engine_slist_append w None expect); simpl; auto.
Qed.

Lemma requested_headers (w : World) (urlString : string) (cdr : list byte)
      (hs : curl_slist) :
  In (CURLOPT_HTTPHEADER hs) (requested_options w urlString cdr)
  <-> hs = request_headers w.
Proof.
  unfold requested_options.
  destruct (467456 <? LIBCURL_VERSION_NUM w); simpl;
    split; intros H; read_handle H.
Qed.

(** X9.  With a handle acquired and nothing throwing, the handle [doPost]
    gives to the engine carries one header list.  It is the three fixed
    headers exactly when all three [curl_slist_append] calls succeed.  Their
    results are not checked: a failed append turns the list into null and the
    next append starts afresh, so the list is otherwise null, "Expect:"
    alone, or "Accept" and "Expect:", and never holds the Content-Type
    header. *)
Theorem doPost_headers
        (w : World) (urlString : string) (cdr : list byte) :
  let content := "Content-Type: application/octet-stream"%string in
  let accept := "Accept: application/octet-stream"%string in
  let expect := "Expect:"%string in
  engine_easy_init w = true ->
  nothrow w ->
  exists h hs,
    handed w urlString cdr h
    /\ (forall hs', In (CURLOPT_HTTPHEADER hs') h <-> hs' = hs)
    /\ (hs = Some [content; accept; expect]
        <-> engine_slist_append w None content = true
            /\ engine_slist_append w (Some [content]) accept = true
            /\ engine_slist_append w (Some [content; accept]) expect = true)
    /\ (hs = Some [content; accept; expect]
        \/ hs = Some [accept; expect]
        \/ hs = Some [expect]
        \/ hs = None).
Proof.
  intros content accept expect Hinit Hquiet.
  exists (requested_options w urlString cdr), (request_headers w).
  split; [now apply doPost_hands_requested |].
  split; [intros hs'; apply requested_headers |].
  apply request_headers_spec.
Qed.

Lemma doPost_headers_witness :
  exists h hs,
    handed (Sample.healthy 200) "https://example.com/upload" Sample.payload h
    /\ (forall hs', In (CURLOPT_HTTPHEADER hs') h <-> hs' = hs)
    /\ (hs = Some [ "Content-Type: application/octet-stream";
                    "Accept: application/octet-stream";
                    "Expect:" ]%string
        <-> true = true /\ true = true /\ true = true)
    /\ (hs = Some [ "Content-Type: application/octet-stream";
                    "Accept: application/octet-stream";
                    "Expect:" ]%string
        \/ hs = Some [ "Accept: application/octet-stream"; "Expect:" ]%string
        \/ hs = Some [ "Expect:" ]%string
        \/ hs = None).
Proof.
  apply (doPost_headers (Sample.healthy 200) "https://example.com/upload"
                        Sample.payload).
  - reflexivity.
  - intros site. reflexivity.
Defined.

Lemma requested_options_spec
      (w : World) (urlString : string) (cdr : list byte) :
  let h := requested_options w urlString cdr in
  NoDup (map option_kind h)
  /\ (forall url, In (CURLOPT_URL url) h <-> url = c_str urlString)
  /\ In (CURLOPT_POST 1) h
  /\ In (CURLOPT_HTTP_VERSION CURL_HTTP_VERSION_1_1) h
  /\ In (CURLOPT_NOSIGNAL 1) h
  /\ (forall v, In (CURLOPT_FOLLOWLOCATION v) h <-> v = 0)
  /\ (forall v, In (CURLOPT_SSLVERSION v) h
                <-> v = CURL_SSLVERSION_TLSv1_2
                    /\ 467456 < LIBCURL_VERSION_NUM w).
Proof.
  intros h. subst h. unfold requested_options.
  destruct (Z.ltb_spec 467456 (LIBCURL_VERSION_NUM w)) as [Hnew | Hold]; simpl.
  - split.
    { repeat (constructor; [simpl; intuition discriminate |]). constructor. }
    repeat split; intros; auto 20;
      repeat match goal with
             | H : _ \/ _ |- _ => destruct H as [H | H]
             | H : _ /\ _ |- _ => destruct H
             end;
      try discriminate; try contradiction; try congruence; subst; auto 20.
  - split.
    { repeat (constructor; [simpl; intuition discriminate |]). constructor. }
    repeat split; intros; auto 20;
      repeat match goal with
             | H : _ \/ _ |- _ => destruct H as [H | H]
             | H : _ /\ _ |- _ => destruct H
             end;
      try discriminate; try contradiction; try congruence; try lia; subst; auto 20.
Qed.

(** X10.  With a handle acquired and nothing throwing, the handle [doPost]
    gives to the engine has every option set at most once, so no call
    overrides an earlier one.  It carries the URL as a C string (what comes
    before the first NUL), POST, HTTP/1.1, no signals, and redirect following
    switched off, never on.  The TLS floor is requested exactly when the
    library is newer than 7.34.0, and then it is TLS 1.2. *)
Theorem doPost_options_once
        (w : World) (urlString : string) (cdr : list byte) :
  engine_easy_init w = true ->
  nothrow w ->
  exists h,
    handed w urlString cdr h
    /\ NoDup (map option_kind h)
    /\ (forall url, In (CURLOPT_URL url) h <-> url = c_str urlString)
    /\ In (CURLOPT_POST 1) h
    /\ In (CURLOPT_HTTP_VERSION CURL_HTTP_VERSION_1_1) h
    /\ In (CURLOPT_NOSIGNAL 1) h
    /\ (forall v, In (CURLOPT_FOLLOWLOCATION v) h <-> v = 0)
    /\ (forall v, In (CURLOPT_SSLVERSION v) h
                  <-> v = CURL_SSLVERSION_TLSv1_2
                      /\ 467456 < LIBCURL_VERSION_NUM w).
Proof.
  intros Hinit Hquiet. exists (requested_options w urlString cdr).
  split; [now apply doPost_hands_requested |].
  apply requested_options_spec.
Qed.

Lemma doPost_options_once_witness :
  exists h,
    handed (Sample.healthy 200) "https://example.com/upload" Sample.payload h
    /\ NoDup (map option_kind h)
    /\ (forall url, In (CURLOPT_URL url) h <-> url = "https://example.com/upload"%string)
    /\ In (CURLOPT_POST 1) h
    /\ In (CURLOPT_HTTP_VERSION CURL_HTTP_VERSION_1_1) h
    /\ In (CURLOPT_NOSIGNAL 1) h
    /\ (forall v, In (CURLOPT_FOLLOWLOCATION v) h <-> v = 0)
    /\ (forall v, In (CURLOPT_SSLVERSION v) h
                  <-> v = CURL_SSLVERSION_TLSv1_2 /\ 467456 < 474880).
Proof.
  apply (doPost_options_once (Sample.healthy 200) "https://example.com/upload"
                             Sample.payload).
  - reflexivity.
  - intros site. reflexivity.
Defined.

Lemma requested_postfieldsize_spec
      (w : World) (urlString : string) (cdr : list byte) :
  Z.of_nat (List.length cdr) < 2 ^ 63 ->
  forall n,
    In (CURLOPT_POSTFIELDSIZE n) (requested_options w urlString cdr)
    <-> n = Z.of_nat (List.length cdr).
Proof.
  intros Hsmall n.
  assert (Hsize : to_long (Cursor.length (Cursor.make cdr))
                  = Z.of_nat (List.length cdr)).
  { unfold Cursor.length, Cursor.make. simpl. rewrite Nat.sub_0_r.
    unfold to_long, size_t_modulus.
    rewrite Z.mod_small by lia. lia. }
  unfold requested_options. rewrite Hsize.
  destruct (467456 <? LIBCURL_VERSION_NUM w); simpl;
    split; intros H; read_handle H.
Qed.

(** X11.  With a handle acquired and nothing throwing, the body size on the
    handle [doPost] gives to the engine is the length of the payload, for
    every payload shorter than 2^63 bytes (beyond that the cast to [long]
    would wrap). *)
Theorem doPost_postfieldsize
        (w : World) (urlString : string) (cdr : list byte) :
  engine_easy_init w = true ->
  nothrow w ->
  Z.of_nat (List.length cdr) < 2 ^ 63 ->
  exists h,
    handed w urlString cdr h
    /\ forall n, In (CURLOPT_POSTFIELDSIZE n) h
                 <-> n = Z.of_nat (List.length cdr).
Proof.
  intros Hinit Hquiet Hsmall. exists (requested_options w urlString cdr).
  split; [now apply doPost_hands_requested |].
  now apply requested_postfieldsize_spec.
Qed.

Lemma doPost_postfieldsize_witness :
  exists h,
    handed (Sample.healthy 200) "https://example.com/upload" Sample.payload h
    /\ forall n, In (CURLOPT_POSTFIELDSIZE n) h <-> n = 3.
Proof.
  apply (doPost_postfieldsize (Sample.healthy 200) "https://example.com/upload"
                              Sample.payload).
  - reflexivity.
  - intros site. reflexivity.
  - reflexivity.
Defined.

(** ** The life of the library manager *)

(** X12.  Tearing down a manager that started with its flag clear and saw one
    call of [initialize]: [curl_global_cleanup] runs once when that call
    succeeded and not at all when it failed, although [curl_global_init] was
    called either way. *)
Theorem destroy_after_initialize
        (w : World) (self : CurlLibraryManager) (g : CurlGlobal) :
  let r := Manager.initialize w self g in
  let g' := Manager.destroy (snd (fst r)) (snd r) in
  _initialized self = false ->
  global_cleanup_calls g'
  = (global_cleanup_calls g + (if isOK (fst (fst r)) then 1 else 0))%nat
  /\ global_init_calls g' = S (global_init_calls g).
Proof.
  intros r g' Hclear. subst g' r.
  unfold Manager.initialize, Manager.curl_global_init. rewrite Hclear.
  destruct (negb (_ =? CURLE_OK)); simpl.
  - unfold Manager.destroy. rewrite Hclear. simpl. lia.
  - destruct (Z.land _ _ =? 0); simpl.
    + unfold Manager.destroy. rewrite Hclear. simpl. lia.
    + lia.
Qed.

Lemma destroy_after_initialize_witness :
  global_cleanup_calls
    (Manager.destroy
       (snd (fst (Manager.initialize Sample.no_tls Manager.fresh Sample.g0)))
       (snd (Manager.initialize Sample.no_tls Manager.fresh Sample.g0)))
  = 0%nat
  /\ global_init_calls
       (Manager.destroy
          (snd (fst (Manager.initialize Sample.no_tls Manager.fresh Sample.g0)))
          (snd (Manager.initialize Sample.no_tls Manager.fresh Sample.g0)))
     = 1%nat.
Proof.
  apply (destroy_after_initialize Sample.no_tls Manager.fresh Sample.g0).
  reflexivity.
Defined.

Lemma initialize_without_tls (w : World) (self : CurlLibraryManager)
      (g : CurlGlobal) :
  Z.land (engine_features w) CURL_VERSION_SSL = 0 ->
  _initialized self = false ->
  isOK (fst (fst (Manager.initialize w self g))) = false
  /\ snd (fst (Manager.initialize w self g)) = self
  /\ snd (Manager.initialize w self g)
     = mkGlobal (S (global_init_calls g)) (global_cleanup_calls g).
Proof.
  intros Htls Hclear.
  unfold Manager.initialize, Manager.curl_global_init. rewrite Hclear, Htls.
  destruct (negb (_ =? CURLE_OK)); simpl; auto.
Qed.

(** X13.  A failure does not latch.  With an engine built without TLS, every
    one of [n] calls of [initialize] in a row fails, leaves the flag clear
    and calls [curl_global_init] again, so start-up has run [n] times; the
    destructor then calls no clean-up at all. *)
Theorem initialize_without_tls_repeats
        (w : World) (n : nat) (self : CurlLibraryManager) (g : CurlGlobal) :
  Z.land (engine_features w) CURL_VERSION_SSL = 0 ->
  _initialized self = false ->
  let r := Manager.initialize_times w n self g in
  List.length (fst (fst r)) = n
  /\ Forall (fun st => isOK st = false) (fst (fst r))
  /\ snd (fst r) = self
  /\ global_init_calls (snd r) = (global_init_calls g + n)%nat
  /\ Manager.destroy (snd (fst r)) (snd r) = snd r.
Proof.
  intros Htls Hclear. revert g.
  induction n as [| n IH]; intros g r; subst r.
  - simpl. repeat split; auto.
    unfold Manager.destroy. now rewrite Hclear.
  - destruct (initialize_without_tls w self g Htls Hclear) as (Hst & Hself & Hg).
    cbn [Manager.initialize_times].
    destruct (Manager.initialize w self g) as [[st self1] g1].
    simpl in Hst, Hself, Hg. subst self1.
    specialize (IH g1).
    destruct (Manager.initialize_times w n self g1) as [[sts self2] g2].
    simpl in IH |- *. destruct IH as (Hlen & Hall & Hself2 & Hcalls & Hdestroy).
    repeat split; auto.
    + rewrite Hcalls, Hg. simpl. lia.
Qed.

Lemma initialize_without_tls_repeats_witness :
  let r := Manager.initialize_times Sample.no_tls 3 Manager.fresh Sample.g0 in
  List.length (fst (fst r)) = 3%nat
  /\ Forall (fun st => isOK st = false) (fst (fst r))
  /\ snd (fst r) = Manager.fresh
  /\ global_init_calls (snd r) = (global_init_calls Sample.g0 + 3)%nat
  /\ Manager.destroy (snd (fst r)) (snd r) = snd r.
Proof.
  apply (initialize_without_tls_repeats Sample.no_tls 3 Manager.fresh Sample.g0);
    reflexivity.
Defined.

(** ** The asynchronous entry point *)

(** X14.  When the executor accepts the work, [postAsync] returns the future
    and the promise behind it receives exactly one write, the one [doPost]
    makes for the URL and the whole of the data given.  When the executor
    rejects the work, [postAsync] throws the executor's status to its caller
    and the promise is never written. *)
Theorem postAsync_resolution
        (w : World) (executor : Executor) (url : string) (data : list byte) :
  (isOK (schedule_status executor) = true ->
   exists wr,
     postAsync w executor url data = (Normal tt, [wr])
     /\ doPost w url data [] = (Normal tt, [wr]))
  /\ (isOK (schedule_status executor) = false ->
      postAsync w executor url data
      = (Thrown (DBException (schedule_status executor)), [])).
Proof.
  unfold postAsync, scheduleWork, uassertStatusOK.
  split; intros Hst; rewrite Hst.
  - unfold ConstDataRange. rewrite Nat2Z.id, firstn_all.
    rewrite doPost_catch.
    destruct (doPost_try_once_or_throw w url data [])
      as [[wr Hwr] | (site & e & _ & He)].
    + rewrite Hwr. simpl. eauto.
    + rewrite He. simpl. eauto.
  - reflexivity.
Qed.

Lemma postAsync_resolution_witness :
  postAsync (Sample.healthy 200) Scenario.shut_down
            "https://example.com/upload" Sample.payload
  = (Thrown (DBException (mkStatus ErrorCodes.BadValue "work rejected")), []).
Proof.
  apply (proj2 (postAsync_resolution (Sample.healthy 200) Scenario.shut_down
                                     "https://example.com/upload" Sample.payload)).
  reflexivity.
Defined.
